(** * run_batch1.py: the company pipeline, embedded and verified

    A shallow embedding of [src/run_batch1.py]: the HTTP helpers
    [safe_get] and [head_ok], the careers-link locator [find_careers],
    the ATS classifier [detect_ats], the job extractor
    [scrape_jobs_simple] and the orchestrator [process_company].

    Python values are modelled as follows.
    - [str] is [string]; a character is a code point below 256.  On that
      range [str.lower], [str.strip] and [re.I] behave as written out in
      module [Str] below.
    - The three libraries the script calls are a record [world]: the
      transport behind [requests.get]/[requests.head] (which may raise and
      whose answers may depend on everything requested before), the HTML
      parser behind [BeautifulSoup(html, "lxml").select("a[href]")], and
      [urllib.parse.urljoin] (which raises [ValueError] on some inputs).
      The parser and [resp.text] are taken as total: a page they would
      raise on is outside the model.
    - A computation is a function from the log of requests issued so far
      to a result (a value or a raised exception) and the extended log. *)

From Stdlib Require Import String Ascii List ZArith Bool Arith Lia DecimalString.
Import ListNotations.
Open Scope list_scope.
Open Scope string_scope.

(** ** Python string methods *)

Module Str.

(** [bool(s)]: a string is truthy when it is not empty. *)
Definition truthy (s : string) : bool :=
  match s with EmptyString => false | String _ _ => true end.

(** [c.isspace()] for a code point below 256: TAB, LF, VT, FF, CR, the
    separators 0x1C-0x1F, SPACE, NEL (0x85) and NBSP (0xA0). *)
Definition isspace (c : ascii) : bool :=
  let n := nat_of_ascii c in
  (((9 <=? n) && (n <=? 13)) || ((28 <=? n) && (n <=? 32))
   || (n =? 133) || (n =? 160))%nat.

(** [c.lower()] for a code point below 256: A-Z and the Latin-1 capitals
    0xC0-0xDE (except the multiplication sign 0xD7) move up by 32. *)
Definition lower_char (c : ascii) : ascii :=
  let n := nat_of_ascii c in
  if (((65 <=? n) && (n <=? 90))
      || ((192 <=? n) && (n <=? 222) && negb (n =? 215)))%nat
  then ascii_of_nat (n + 32) else c.

(** [s.lower()] *)
Fixpoint lower (s : string) : string :=
  match s with
  | EmptyString => EmptyString
  | String c s' => String (lower_char c) (lower s')
  end.

(** [s.lstrip()] *)
Fixpoint lstrip (s : string) : string :=
  match s with
  | EmptyString => EmptyString
  | String c s' => if isspace c then lstrip s' else s
  end.

(** [s.rstrip()] *)
Fixpoint rstrip (s : string) : string :=
  match s with
  | EmptyString => EmptyString
  | String c s' =>
      let r := rstrip s' in
      if isspace c && negb (truthy r) then EmptyString else String c r
  end.

(** [s.strip()] *)
Definition strip (s : string) : string := rstrip (lstrip s).

(** [s.startswith(p)] *)
Definition startswith (s p : string) : bool := prefix p s.

(** [sub in s] *)
Fixpoint contains (sub s : string) : bool :=
  prefix sub s ||
  match s with
  | EmptyString => false
  | String _ s' => contains sub s'
  end.

(** [s.replace(old, new)] for a one-character [old]. *)
Fixpoint replace (old : ascii) (new : string) (s : string) : string :=
  match s with
  | EmptyString => EmptyString
  | String c s' =>
      if Ascii.eqb c old then new ++ replace old new s'
      else String c (replace old new s')
  end.

(** [str(n)] for a natural number, as an f-string prints it. *)
Definition of_nat (n : nat) : string := NilEmpty.string_of_uint (Nat.to_uint n).

(** A literal of a pattern compiled with [re.I] matches at the start of
    [s]: each character of [s] is compared after lowering. *)
Fixpoint imatch_here (lit s : string) : bool :=
  match lit, s with
  | EmptyString, _ => true
  | String _ _, EmptyString => false
  | String a lit', String b s' =>
      Ascii.eqb (lower_char b) (lower_char a) && imatch_here lit' s'
  end.

(** [re.search("(l1|l2|...)", s, re.I)] as a truth value: the leftmost
    position of [s] at which one of the alternatives matches. *)
Fixpoint re_search_i (alts : list string) (s : string) : bool :=
  existsb (fun lit => imatch_here lit s) alts ||
  match s with
  | EmptyString => false
  | String _ s' => re_search_i alts s'
  end.

End Str.

(** ** Configuration constants *)

Definition COLUMNS : list string :=
  [ "Company Name"; "Website URL"; "Linkedin URL"; "Careers Page URL";
    "Job listings page URL"; "Provider";
    "job post1 URL"; "job post1 title"; "job post1 location"; "job post1 date";
    "job post2 URL"; "job post2 title"; "job post2 location"; "job post2 date";
    "job post3 URL"; "job post3 title"; "job post3 location"; "job post3 date" ].

Definition CAREERS_KEYWORDS : list string := ["career"; "careers"; "jobs"; "join"].

(** A dict literal iterates in insertion order. *)
Definition ATS_PATTERNS : list (string * string) :=
  [ ("Personio", "personio.com");
    ("Teamtailor", "teamtailor.com");
    ("Zoho Recruit", "zohorecruit.com");
    ("Lever", "lever.co");
    ("Greenhouse", "greenhouse.io") ].

(** The alternatives of the pattern in [scrape_jobs_simple]. *)
Definition ROLE_KEYWORDS : list string :=
  [ "engineer"; "manager"; "developer"; "analyst"; "designer"; "specialist";
    "intern"; "consultant"; "coordinator"; "technician" ].

(** The candidate list of the loop in [process_company]. *)
Definition TLDS : list string := ["com"; "org"; "io"; "ai"; "net"; "co"].

(** ** [detect_ats] *)

(** The [for name, pattern in ATS_PATTERNS.items()] loop: [Some name] at
    the first [return name], [None] when the loop runs to its end. *)
Fixpoint detect_ats_loop (items : list (string * string)) (url : string)
  : option string :=
  match items with
  | [] => None
  | (name, pattern) :: rest =>
      if Str.truthy url && Str.contains pattern url then Some name
      else detect_ats_loop rest url
  end.

Definition detect_ats (url : string) : string :=
  match detect_ats_loop ATS_PATTERNS url with
  | Some name => name
  | None => if Str.truthy url then "Internal" else ""
  end.

(** ** The world outside the script *)

Inductive method : Type := GET | HEAD.

(** A call [requests.get(url, headers=..., timeout=...)] or
    [requests.head(...)], by its arguments.  (A call is one entry of the
    log; what the library sends for it, such as the requests of the
    redirects a GET follows, is inside the transport.) *)
Record request : Type := mk_request {
  req_method : method;
  req_url : string;
  req_headers : list (string * string);
  req_timeout : Z }.

(** A [requests.Response], with the two attributes the script reads. *)
Record response : Type := mk_response {
  status_code : Z;
  text : string }.

(** An element of [soup.select("a[href]")]: the value of [a.get("href")]
    and of [a.get_text(" ", strip=True)]. *)
Record anchor : Type := mk_anchor {
  href : string;
  get_text : string }.

Inductive exn : Type :=
| RequestException   (* anything [requests] raises *)
| ValueError.        (* what [urljoin] raises *)

Inductive result (A : Type) : Type :=
| Ok (a : A)
| Raise (e : exn).
Arguments Ok {A} a.
Arguments Raise {A} e.

Record world : Type := mk_world {
  (** the answer to a request, given the requests issued before it *)
  transport : list request -> request -> result response;
  (** [BeautifulSoup(html, "lxml").select("a[href]")], in document order *)
  select_a_href : string -> list anchor;
  (** [urllib.parse.urljoin(base, url)]; it raises [ValueError] on some
      arguments, such as a [url] whose authority part opens a bracket
      that it does not close *)
  urljoin : string -> string -> result string }.

(** ** Computations: a request log and exceptions *)

Definition io (A : Type) : Type := list request -> result A * list request.

Definition ret {A} (a : A) : io A := fun log => (Ok a, log).

Definition lift {A} (r : result A) : io A := fun log => (r, log).

Definition bind {A B} (m : io A) (k : A -> io B) : io B :=
  fun log =>
    match m log with
    | (Ok a, log') => k a log'
    | (Raise e, log') => (Raise e, log')
    end.

(** [try: body / except: handler], with a bare [except]. *)
Definition try_except {A} (body handler : io A) : io A :=
  fun log =>
    match body log with
    | (Ok a, log') => (Ok a, log')
    | (Raise _, log') => handler log'
    end.

Definition rbind {A B} (r : result A) (k : A -> result B) : result B :=
  match r with
  | Ok a => k a
  | Raise e => Raise e
  end.

Declare Scope io_scope.
Delimit Scope io_scope with io.
Notation "x <- m ;; k" := (bind m (fun x => k))
  (at level 61, m at next level, right associativity) : io_scope.
Notation "x <~ r ;; k" := (rbind r (fun x => k))
  (at level 61, r at next level, right associativity) : io_scope.
Open Scope io_scope.

(** ** The output row: a dict from column name to string *)

Definition dict : Type := list (string * string).

(** [d[k]] *)
Fixpoint dict_get (k : string) (d : dict) : option string :=
  match d with
  | [] => None
  | (k', v) :: d' => if String.eqb k k' then Some v else dict_get k d'
  end.

(** [d[k] = v]: an existing key keeps its place, a new key goes last. *)
Fixpoint dict_set (k v : string) (d : dict) : dict :=
  match d with
  | [] => [(k, v)]
  | (k', v') :: d' =>
      if String.eqb k k' then (k', v) :: d' else (k', v') :: dict_set k v d'
  end.

Definition keys (d : dict) : list string := map fst d.

(** A job dict [{"url": .., "title": .., "location": .., "date": ..}]. *)
Record job : Type := mk_job {
  url : string;
  title : string;
  location : string;
  date : string }.

Definition HEADERS : list (string * string) := [("User-Agent", "Mozilla/5.0")].
Definition TIMEOUT : Z := 15.

Definition get_request (u : string) : request := mk_request GET u HEADERS TIMEOUT.
Definition head_request (u : string) : request := mk_request HEAD u HEADERS TIMEOUT.

(** The f-string [f"https://{name_clean.lower().replace(' ', '')}.{tld}"]. *)
Definition test_url (name_clean tld : string) : string :=
  "https://" ++ Str.replace " " "" (Str.lower name_clean) ++ "." ++ tld.

(** [a or b] on strings. *)
Definition py_or (a b : string) : string := if Str.truthy a then a else b.

Section Pipeline.

Variable W : world.

(** ** HTTP helpers *)

(** [requests.get(url, headers=HEADERS, timeout=TIMEOUT)] *)
Definition requests_get (u : string) : io response :=
  fun log => (transport W log (get_request u), (log ++ [get_request u])%list).

(** [requests.head(url, headers=HEADERS, timeout=TIMEOUT)] *)
Definition requests_head (u : string) : io response :=
  fun log => (transport W log (head_request u), (log ++ [head_request u])%list).

(** [None] is the script's [return None]. *)
Definition safe_get (u : string) : io (option response) :=
  try_except
    (r <- requests_get u ;;
     if (status_code r <? 400)%Z then ret (Some r) else ret None)
    (ret None).

Definition head_ok (u : string) : io bool :=
  try_except
    (r <- requests_head u ;;
     ret (status_code r <? 400)%Z)
    (ret false).

(** ** [find_careers] *)

(** The test [any(kw in href.lower() or kw in text for kw in CAREERS_KEYWORDS)]. *)
Definition any_careers_keyword (href_ text_ : string) : bool :=
  existsb (fun kw => Str.contains kw (Str.lower href_) || Str.contains kw text_)
          CAREERS_KEYWORDS.

(** The [for a in soup.select("a[href]")] loop and the final [return ""]. *)
Fixpoint find_careers_loop (base_url : string) (anchors : list anchor)
  : result string :=
  match anchors with
  | [] => Ok ""
  | a :: rest =>
      let href_ := Str.strip (href a) in
      let text_ := Str.lower (get_text a) in
      if any_careers_keyword href_ text_ then
        if negb (Str.startswith href_ "http") then urljoin W base_url href_
        else Ok href_
      else find_careers_loop base_url rest
  end.

Definition find_careers (base_url html : string) : result string :=
  find_careers_loop base_url (select_a_href W html).

(** ** [scrape_jobs_simple] *)

(** The loop over the anchors of the listings page; [jobs] is the list
    built so far.  Each [continue] goes straight to the next anchor, every
    other path ends at the test [len(jobs) >= 3]. *)
Fixpoint scrape_loop (listings_url : string) (anchors : list anchor)
    (jobs : list job) : result (list job) :=
  match anchors with
  | [] => Ok jobs
  | a :: rest =>
      let title_ := get_text a in
      if negb (Str.truthy title_) then scrape_loop listings_url rest jobs
      else if Str.re_search_i ROLE_KEYWORDS title_ then
        let job_url := href a in
        if negb (Str.truthy job_url) then scrape_loop listings_url rest jobs
        else
          job_url' <~ (if negb (Str.startswith job_url "http")
                       then urljoin W listings_url job_url
                       else Ok job_url) ;;
          let jobs' := (jobs ++ [mk_job job_url' title_ "" ""])%list in
          if (3 <=? length jobs')%nat then Ok jobs'
          else scrape_loop listings_url rest jobs'
      else
        if (3 <=? length jobs)%nat then Ok jobs
        else scrape_loop listings_url rest jobs
  end.

(** [if not r] holds exactly for [None]: a response that [safe_get]
    returns has a status below 400 and is truthy. *)
Definition scrape_jobs_simple (listings_url : string) : io (list job) :=
  r <- safe_get listings_url ;;
  match r with
  | None => ret []
  | Some r => lift (scrape_loop listings_url (select_a_href W (text r)) [])
  end.

(** ** [process_company] *)

(** The loop [for tld in [...]] of [process_company]; the value is the
    variable [website] when the loop is left. *)
Fixpoint guess_website (name_clean : string) (tlds : list string) : io string :=
  match tlds with
  | [] => ret ""
  | tld :: rest =>
      let test_url_ := test_url name_clean tld in
      ok <- head_ok test_url_ ;;
      if ok then ret test_url_ else guess_website name_clean rest
  end.

Definition empty_job : job := mk_job "" "" "" "".

(** The loop [for i in range(3)] that writes the twelve job columns. *)
Fixpoint fill_posts (range : list nat) (jobs : list job) (row : dict) : dict :=
  match range with
  | [] => row
  | i :: rest =>
      let col := fun field => "job post" ++ Str.of_nat (i + 1) ++ " " ++ field in
      let row' :=
        if (i <? length jobs)%nat then
          dict_set (col "date") (date (nth i jobs empty_job))
            (dict_set (col "location") (location (nth i jobs empty_job))
               (dict_set (col "title") (title (nth i jobs empty_job))
                  (dict_set (col "URL") (url (nth i jobs empty_job)) row)))
        else
          dict_set (col "date") ""
            (dict_set (col "location") ""
               (dict_set (col "title") ""
                  (dict_set (col "URL") "" row)))
      in
      fill_posts rest jobs row'
  end.

(** The block [# Find careers page] of [process_company]; the value is
    the variable [careers] after it. *)
Definition careers_page (website : string) : io string :=
  if Str.truthy website then
    resp <- safe_get website ;;
    match resp with
    | Some r => lift (find_careers website (text r))
    | None => ret ""
    end
  else ret "".

Definition process_company (name : string) : io dict :=
  let name_clean := Str.strip name in
  let linkedin :=
    "https://www.linkedin.com/company/"
      ++ Str.replace " " "-" (Str.lower name_clean) ++ "/" in
  website <- guess_website name_clean TLDS ;;
  careers <- careers_page website ;;
  let jobs_url := py_or careers (py_or website "") in
  let provider := detect_ats jobs_url in
  jobs <- (if Str.truthy jobs_url then scrape_jobs_simple jobs_url
           else ret []) ;;
  let row :=
    [ ("Company Name", name_clean);
      ("Website URL", website);
      ("Linkedin URL", linkedin);
      ("Careers Page URL", careers);
      ("Job listings page URL", jobs_url);
      ("Provider", provider) ] in
  ret (fill_posts (seq 0 3) jobs row).

End Pipeline.

(** ** [main] *)

Definition START_ROW : nat := 0.
Definition BATCH_COUNT : nat := 800.

(** A sheet read by [pd.read_excel], as rows of cells under the columns
    [COLUMNS]; [None] is a missing value (NaN). *)
Definition frame : Type := list (list (option string)).

(** [df[df["Company Name"].notna()]], given the cells of that column: the
    rows that have a name, in sheet order. *)
Fixpoint notna (cells : list (option string)) : list string :=
  match cells with
  | [] => []
  | Some name :: rest => name :: notna rest
  | None :: rest => notna rest
  end.

(** [df.iloc[start:stop]] *)
Definition iloc {A} (start stop : nat) (rows : list A) : list A :=
  firstn (stop - start) (skipn start rows).

(** [pd.DataFrame(results, columns=columns)]: one row per dict, one cell
    per column, missing where the dict has no such key. *)
Definition DataFrame (results : list dict) (columns : list string) : frame :=
  map (fun row => map (fun c => dict_get c row) columns) results.

(** [pd.concat([a, b], ignore_index=True)] for two frames with the same
    columns. *)
Definition concat (a b : frame) : frame := (a ++ b)%list.

Section Batch.

Variable W : world.

(** The loop [for _, r in df_batch.iterrows()] of [main]; [results] is
    the list appended to.  ([time.sleep] changes no value.) *)
Fixpoint main_loop (names : list string) (results : list dict) : io (list dict) :=
  match names with
  | [] => ret results
  | name :: rest =>
      row <- process_company W name ;;
      main_loop rest (results ++ [row])%list
  end.

(** [main], given the cells of the column Company Name of the input
    sheet (a cell holds the text [str] gives for it) and the sheet Data of
    the output file as [pd.read_excel] returns it ([None] when the file
    does not exist).  The value is the number [len(out_df)] that is
    printed; the last component is what the output file holds afterwards:
    the frame handed to [to_excel], or what was there when [to_excel] is
    not reached. *)
Definition main (cells : list (option string)) (disk : option frame)
    (log : list request) : result nat * list request * option frame :=
  let df_batch := iloc START_ROW (START_ROW + BATCH_COUNT) (notna cells) in
  match main_loop df_batch [] log with
  | (Raise e, log') => (Raise e, log', disk)
  | (Ok results, log') =>
      let out_df := DataFrame results COLUMNS in
      match disk with
      | Some existing_df => (Ok (length out_df), log', Some (concat existing_df out_df))
      | None => (Ok (length out_df), log', Some out_df)
      end
  end.

End Batch.

(** ** Reading a CompanyResult off the row *)

Definition column (k : string) (row : dict) : string :=
  match dict_get k row with Some v => v | None => "" end.

Definition companyName := column "Company Name".
Definition websiteURL := column "Website URL".
Definition linkedinURL := column "Linkedin URL".
Definition careersURL := column "Careers Page URL".
Definition jobsListingURL := column "Job listings page URL".
Definition provider := column "Provider".

(** The job-posting slots of a row: one per group of the four columns
    [job postN URL/title/location/date] present in it, in column order. *)
Fixpoint slots_from (n : nat) (fuel : nat) (row : dict) : list job :=
  match fuel with
  | O => []
  | S fuel' =>
      let col := fun field => "job post" ++ Str.of_nat n ++ " " ++ field in
      match dict_get (col "URL") row, dict_get (col "title") row,
            dict_get (col "location") row, dict_get (col "date") row with
      | Some u, Some t, Some l, Some d =>
          mk_job u t l d :: slots_from (S n) fuel' row
      | _, _, _, _ => []
      end
  end.

Definition slots (row : dict) : list job := slots_from 1 (length row) row.

(** ** Vocabulary of the statements *)

(** [sub] occurs in [s]. *)
Definition substring_of (sub s : string) : Prop :=
  exists pre post, s = pre ++ sub ++ post.

(** The transport answered with a status below 400. *)
Definition below_400 (answer : result response) : bool :=
  match answer with
  | Ok r => (status_code r <? 400)%Z
  | Raise _ => false
  end.

(** The candidate websites of a company name, in probing order. *)
Definition candidates (name : string) : list string :=
  map (test_url (Str.strip name)) TLDS.

(** The HEAD requests for the candidates built from a list of TLDs. *)
Definition probes (name_clean : string) (tlds : list string) : list request :=
  map head_request (map (test_url name_clean) tlds).

(** The probe of [tld] is answered with a status below 400 when it is
    issued after the probes of [earlier]. *)
Definition probe_ok (W : world) (log : list request) (name_clean : string)
    (earlier : list string) (tld : string) : bool :=
  below_400 (transport W (log ++ probes name_clean earlier)%list
                         (head_request (test_url name_clean tld))).

(** An anchor carries a careers keyword in its lowercased href or text. *)
Definition careers_anchor (a : anchor) : Prop :=
  exists kw, In kw CAREERS_KEYWORDS
             /\ (substring_of kw (Str.lower (href a))
                 \/ substring_of kw (Str.lower (get_text a))).

(** A title carries a role keyword, whatever the case of its letters. *)
Definition role_title (t : string) : Prop :=
  exists kw, In kw ROLE_KEYWORDS /\ substring_of kw (Str.lower t).

(** An anchor that [scrape_jobs_simple] turns into a posting: visible
    text that the role pattern matches, and a non-empty href. *)
Definition job_anchor (a : anchor) : bool :=
  Str.truthy (get_text a)
  && Str.re_search_i ROLE_KEYWORDS (get_text a)
  && Str.truthy (href a).

(** The posting built from such an anchor. *)
Definition posting (W : world) (listings_url : string) (a : anchor) : result job :=
  job_url <~ (if Str.startswith (href a) "http" then Ok (href a)
              else urljoin W listings_url (href a)) ;;
  Ok (mk_job job_url (get_text a) "" "").

(** Left-to-right evaluation of [f] over a list, stopping at the first
    exception. *)
Fixpoint traverse {A B} (f : A -> result B) (l : list A) : result (list B) :=
  match l with
  | [] => Ok []
  | x :: l' => y <~ f x ;; ys <~ traverse f l' ;; Ok (y :: ys)
  end.

(** The answers of the transport depend on the request only, not on what
    was requested before. *)
Definition stable (W : world) : Prop :=
  forall log1 log2 rq, transport W log1 rq = transport W log2 rq.

(** The specification's notion of an absolute URL, after RFC 3986: a
    scheme (a letter, then letters, digits, [+], [-] or [.]) and a colon. *)
Definition is_alpha (c : ascii) : bool :=
  let n := nat_of_ascii c in
  (((65 <=? n) && (n <=? 90)) || ((97 <=? n) && (n <=? 122)))%nat.

Definition is_scheme_char (c : ascii) : bool :=
  let n := nat_of_ascii c in
  (is_alpha c || ((48 <=? n) && (n <=? 57)) || (n =? 43) || (n =? 45) || (n =? 46))%nat.

Fixpoint scheme_tail (s : string) : bool :=
  match s with
  | EmptyString => false
  | String c s' =>
      if Ascii.eqb c ":" then true
      else if is_scheme_char c then scheme_tail s' else false
  end.

Definition spec_is_absolute (u : string) : bool :=
  match u with
  | EmptyString => false
  | String c s' => is_alpha c && scheme_tail s'
  end.

(** The first element of a list that satisfies a test. *)
Definition first_anchor (test : anchor -> bool) (l : list anchor) : option anchor :=
  find test l.

(** No character of [s] is whitespace. *)
Fixpoint spaceless (s : string) : bool :=
  match s with
  | EmptyString => true
  | String c s' => negb (Str.isspace c) && spaceless s'
  end.

(** The test of [careers_anchor] as a boolean, on the href as the page
    has it. *)
Definition careers_test (a : anchor) : bool :=
  any_careers_keyword (href a) (Str.lower (get_text a)).

(** The locator as the specification words it: the first anchor that
    passes the keyword test, its href kept when it is an absolute URL and
    joined with the base URL when it is not; empty without such an anchor. *)
Definition spec_find_careers (W : world) (base_url html : string) : result string :=
  match first_anchor careers_test (select_a_href W html) with
  | Some a =>
      if spec_is_absolute (href a) then Ok (href a)
      else urljoin W base_url (href a)
  | None => Ok ""
  end.

(** The value of a computation does not depend on the log it starts from. *)
Definition log_free {A} (m : io A) : Prop :=
  forall log1 log2, fst (m log1) = fst (m log2).

(** ** A recorded web

    A small fixed world for running the script: four sites, the anchors
    of their pages, and the joins the script asks for on them, each with
    the answer [urllib.parse.urljoin] gives.  A join outside the table is
    answered by concatenation, a stand-in that no run below asks for. *)

Module Demo.

Fixpoint lookup {A} (k : string) (table : list (string * A)) : option A :=
  match table with
  | [] => None
  | (k', v) :: rest => if String.eqb k k' then Some v else lookup k rest
  end.

Definition acme_home : string := "<a href='/careers'>Careers</a>".
Definition acme_careers : string :=
  "<a href='/'>Home</a><a href='/about'>About</a><a href='/jobs/42'>Senior Engineer</a><a href='/blog'>Blog</a><a href='/contact'>Contact</a><a href='/press'>Press</a>".
Definition brackets_home : string := "<a href='//[careers'>Careers</a>".
Definition relpath_home : string := "<a href='httpd/careers.html'>Work with us</a>".

(** HEAD answers 200 for these, and raises for every other URL. *)
Definition live : list string :=
  [ "https://acme.com"; "https://acme.io"; "https://brackets.com";
    "https://relpath.com" ].

(** GET answers 200 with these bodies, and raises for every other URL. *)
Definition bodies : list (string * string) :=
  [ ("https://acme.com", acme_home);
    ("https://acme.com/careers", acme_careers);
    ("https://brackets.com", brackets_home);
    ("https://relpath.com", relpath_home) ].

Definition anchors : list (string * list anchor) :=
  [ (acme_home, [mk_anchor "/careers" "Careers"]);
    (acme_careers,
      [ mk_anchor "/" "Home"; mk_anchor "/about" "About";
        mk_anchor "/jobs/42" "Senior Engineer"; mk_anchor "/blog" "Blog";
        mk_anchor "/contact" "Contact"; mk_anchor "/press" "Press" ]);
    (brackets_home, [mk_anchor "//[careers" "Careers"]);
    (relpath_home, [mk_anchor "httpd/careers.html" "Work with us"]) ].

Definition joins : list (string * list (string * result string)) :=
  [ ("https://acme.com", [("/careers", Ok "https://acme.com/careers")]);
    ("https://acme.com/careers", [("/jobs/42", Ok "https://acme.com/jobs/42")]);
    ("https://brackets.com", [("//[careers", Raise ValueError)]);
    ("https://relpath.com",
      [("httpd/careers.html", Ok "https://relpath.com/httpd/careers.html")]) ].

Definition web : world :=
  {| transport := fun _ rq =>
       match req_method rq with
       | HEAD =>
           if existsb (String.eqb (req_url rq)) live
           then Ok (mk_response 200 "") else Raise RequestException
       | GET =>
           match lookup (req_url rq) bodies with
           | Some body => Ok (mk_response 200 body)
           | None => Raise RequestException
           end
       end;
     select_a_href := fun html =>
       match lookup html anchors with Some l => l | None => [] end;
     urljoin := fun base u =>
       match lookup base joins with
       | Some table =>
           match lookup u table with Some r => r | None => Ok (base ++ "/" ++ u) end
       | None => Ok (base ++ "/" ++ u)
       end |}.

End Demo.

(** ** Titles as sequences of Unicode code points

    The extractor once more, for every Python [str] as the visible text of
    an anchor.  A pattern compiled with [re.I] compares a lowered pattern
    character with the simple lowercase of the input code point, and the
    compiler adds the code points that are further case variants of the
    pattern character; for pattern characters below 256 these are all
    listed in [also_matches]. *)

Module Wide.

Definition ustr : Type := list N.


(** [bool(t)] *)
Definition truthy (t : ustr) : bool :=
  match t with [] => false | _ :: _ => true end.

(** The code points from 256 on that match a lowered pattern character
    under [re.I]: U+0130 and U+0131 for [i], U+212A for [k], U+017F for
    [s], and the variants of the Latin-1 letters 0xB5, 0xDF, 0xE5, 0xFF. *)
Definition also_matches (lowered : ascii) : list N :=
  let n := nat_of_ascii lowered in
  if (n =? 105)%nat then [0x130; 0x131]%N
  else if (n =? 107)%nat then [0x212A]%N
  else if (n =? 115)%nat then [0x17F]%N
  else if (n =? 181)%nat then [0x39C; 0x3BC]%N
  else if (n =? 223)%nat then [0x1E9E]%N
  else if (n =? 229)%nat then [0x212B]%N
  else if (n =? 255)%nat then [0x178]%N
  else [].

(** One pattern character against one code point of the input. *)
Definition imatch_cp (a : ascii) (cp : N) : bool :=
  if (cp <? 256)%N
  then Ascii.eqb (Str.lower_char (ascii_of_N cp)) (Str.lower_char a)
  else existsb (N.eqb cp) (also_matches (Str.lower_char a)).

Fixpoint imatch_here (lit : string) (t : ustr) : bool :=
  match lit, t with
  | EmptyString, _ => true
  | String _ _, [] => false
  | String a lit', cp :: t' => imatch_cp a cp && imatch_here lit' t'
  end.

(** [re.search("(l1|l2|...)", t, re.I)] as a truth value. *)
Fixpoint re_search_i (alts : list string) (t : ustr) : bool :=
  existsb (fun lit => imatch_here lit t) alts ||
  match t with
  | [] => false
  | _ :: t' => re_search_i alts t'
  end.

(** [t.lower()], where the table has the code points of [t]: those
    below 256, U+0130 (which becomes [i] and U+0307), U+0131, U+017F,
    U+0307 and U+212A. *)
Definition lower_cp (cp : N) : option (list N) :=
  (if cp <? 256 then Some [N_of_ascii (Str.lower_char (ascii_of_N cp))]
   else if cp =? 0x130 then Some [0x69; 0x307]
   else if cp =? 0x212A then Some [0x6B]
   else if existsb (N.eqb cp) [0x131; 0x17F; 0x307] then Some [cp]
   else None)%N.

Fixpoint lower (t : ustr) : option ustr :=
  match t with
  | [] => Some []
  | cp :: t' =>
      match lower_cp cp, lower t' with
      | Some l, Some r => Some (l ++ r)%list
      | _, _ => None
      end
  end.

Fixpoint starts_with (sub t : ustr) : bool :=
  match sub, t with
  | [], _ => true
  | _ :: _, [] => false
  | a :: sub', b :: t' => N.eqb a b && starts_with sub' t'
  end.

(** [sub in t] *)
Fixpoint contains (sub t : ustr) : bool :=
  starts_with sub t ||
  match t with
  | [] => false
  | _ :: t' => contains sub t'
  end.

(** An element of [soup.select("a[href]")] and a job dict, with the
    visible text as a sequence of code points. *)
Record anchor : Type := mk_anchor {
  href : string;
  get_text : ustr }.

Record job : Type := mk_job {
  url : string;
  title : ustr;
  location : string;
  date : string }.

Section Extractor.

Variable W : world.

(** [BeautifulSoup(html, "lxml").select("a[href]")] with the texts as
    they are. *)
Variable select : string -> list anchor.

(** The loop of [scrape_jobs_simple]. *)
Fixpoint scrape_loop (listings_url : string) (anchors : list anchor)
    (jobs : list job) : result (list job) :=
  match anchors with
  | [] => Ok jobs
  | a :: rest =>
      let title_ := get_text a in
      if negb (truthy title_) then scrape_loop listings_url rest jobs
      else if re_search_i ROLE_KEYWORDS title_ then
        let job_url := href a in
        if negb (Str.truthy job_url) then scrape_loop listings_url rest jobs
        else
          job_url' <~ (if negb (Str.startswith job_url "http")
                       then urljoin W listings_url job_url
                       else Ok job_url) ;;
          let jobs' := (jobs ++ [mk_job job_url' title_ "" ""])%list in
          if (3 <=? length jobs')%nat then Ok jobs'
          else scrape_loop listings_url rest jobs'
      else
        if (3 <=? length jobs)%nat then Ok jobs
        else scrape_loop listings_url rest jobs
  end.

Definition scrape_jobs_simple (listings_url : string) : io (list job) :=
  r <- safe_get W listings_url ;;
  match r with
  | None => ret []
  | Some r => lift (scrape_loop listings_url (select (text r)) [])
  end.

End Extractor.









End Wide.

(** ** Transport failures seen from the pipeline *)

(** Two answers of the transport that the helpers treat alike: the same
    answer, or two failures (an exception, or a status of 400 or more). *)
Definition alike (a b : result response) : Prop :=
  a = b \/ (below_400 a = false /\ below_400 b = false).

(** The world with another transport under the same libraries. *)
Definition with_transport (W : world)
    (t : list request -> request -> result response) : world :=
  mk_world t (select_a_href W) (urljoin W).

(** The recorded transport, answering 503 where it used to raise. *)
Definition answering_503 (log : list request) (rq : request) : result response :=
  match transport Demo.web log rq with
  | Ok r => Ok r
  | Raise _ => Ok (mk_response 503 "")
  end.

(** ** Runs on concrete inputs *)

Example strip_trims_both_ends :
  Str.strip (String "009" "  Acme Corp ") = "Acme Corp".
Proof. reflexivity. Qed.

Example lower_then_replace :
  Str.replace " " "-" (Str.lower "Acme Corp") = "acme-corp".
Proof. reflexivity. Qed.

Example role_pattern_ignores_case :
  Str.re_search_i ROLE_KEYWORDS "Senior ENGineer" = true
  /\ Str.re_search_i ROLE_KEYWORDS "About us" = false.
Proof. split; reflexivity. Qed.

Example detect_ats_prefers_earlier_entry :
  detect_ats "https://x.teamtailor.com/?via=greenhouse.io" = "Teamtailor".
Proof. reflexivity. Qed.

(** The end-to-end scenario: the name is trimmed, the [.com] candidate is
    taken, the careers link and the one role-titled anchor are resolved,
    and slots 2 and 3 are empty. *)
Example acme_row :
  fst (process_company Demo.web " Acme " []) =
    Ok [ ("Company Name", "Acme");
         ("Website URL", "https://acme.com");
         ("Linkedin URL", "https://www.linkedin.com/company/acme/");
         ("Careers Page URL", "https://acme.com/careers");
         ("Job listings page URL", "https://acme.com/careers");
         ("Provider", "Internal");
         ("job post1 URL", "https://acme.com/jobs/42");
         ("job post1 title", "Senior Engineer");
         ("job post1 location", ""); ("job post1 date", "");
         ("job post2 URL", ""); ("job post2 title", "");
         ("job post2 location", ""); ("job post2 date", "");
         ("job post3 URL", ""); ("job post3 title", "");
         ("job post3 location", ""); ("job post3 date", "") ].
Proof. reflexivity. Qed.

(** ** Facts about the string methods *)

Lemma prefix_app (p s : string) : prefix p (p ++ s) = true.
Proof.
  induction p as [|c p IH]; simpl.
  - destruct s; reflexivity.
  - destruct (ascii_dec c c); [exact IH | congruence].
Qed.

Lemma prefix_inv (p s : string) : prefix p s = true -> exists post, s = p ++ post.
Proof.
  revert s. induction p as [|c p IH]; intros s H.
  - exists s. reflexivity.
  - destruct s as [|d s]; simpl in H; [discriminate|].
    destruct (ascii_dec c d) as [->|]; [|discriminate].
    destruct (IH _ H) as [post ->]. exists post. reflexivity.
Qed.

Lemma contains_spec (sub s : string) :
  Str.contains sub s = true <-> substring_of sub s.
Proof.
  split.
  - induction s as [|c s IH]; cbn [Str.contains]; intros H.
    + rewrite orb_false_r in H. destruct (prefix_inv _ _ H) as [post E].
      exists "", post. exact E.
    + apply orb_true_iff in H. destruct H as [H|H].
      * destruct (prefix_inv _ _ H) as [post E]. exists "", post. exact E.
      * destruct (IH H) as (pre & post & ->). exists (String c pre), post. reflexivity.
  - intros (pre & post & ->). induction pre as [|c pre IH].
    + cbn [append]. destruct (sub ++ post) eqn:E; cbn [Str.contains];
        rewrite <- E, prefix_app; reflexivity.
    + cbn [append Str.contains]. rewrite IH. apply orb_true_r.
Qed.

Lemma contains_false (sub s : string) :
  Str.contains sub s = false <-> ~ substring_of sub s.
Proof.
  rewrite <- contains_spec. destruct (Str.contains sub s); split; congruence.
Qed.

(** ** [detect_ats] *)

Lemma detect_ats_loop_some (items : list (string * string)) (u name : string) :
  Str.truthy u = true ->
  detect_ats_loop items u = Some name ->
  exists before sig after,
    items = (before ++ (name, sig) :: after)%list
    /\ substring_of sig u
    /\ Forall (fun p => ~ substring_of (snd p) u) before.
Proof.
  intros Hu. induction items as [|[n sig] rest IH]; cbn [detect_ats_loop]; [discriminate|].
  rewrite Hu. cbn [andb]. destruct (Str.contains sig u) eqn:E.
  - intros [= <-]. exists [], sig, rest.
    repeat split; [apply contains_spec, E | constructor].
  - intros H. destruct (IH H) as (before & sig' & after & -> & Hs & Hb).
    exists ((n, sig) :: before), sig', after. repeat split; trivial.
    constructor; [|exact Hb]. apply contains_false, E.
Qed.

Lemma detect_ats_loop_none (items : list (string * string)) (u : string) :
  Str.truthy u = true ->
  detect_ats_loop items u = None ->
  Forall (fun p => ~ substring_of (snd p) u) items.
Proof.
  intros Hu. induction items as [|[n sig] rest IH]; cbn [detect_ats_loop]; [constructor|].
  rewrite Hu. cbn [andb]. destruct (Str.contains sig u) eqn:E; [discriminate|].
  intros H. constructor; [apply contains_false, E | apply IH, H].
Qed.

Lemma detect_ats_loop_empty (items : list (string * string)) :
  detect_ats_loop items "" = None.
Proof. induction items as [|[n sig] rest IH]; [reflexivity | exact IH]. Qed.

(** C2.  [detect_ats] is a function of the URL alone.  On the empty URL
    it is the empty string.  On a non-empty URL it is the name of the
    first entry of the mapping (Personio, Teamtailor, Zoho Recruit, Lever,
    Greenhouse, in that order) whose signature occurs in the URL, and
    ["Internal"] when no signature occurs in it.  The two URLs of the
    specification classify as Lever and Internal. *)
Theorem detect_ats_first_signature :
  map fst ATS_PATTERNS
    = ["Personio"; "Teamtailor"; "Zoho Recruit"; "Lever"; "Greenhouse"]
  /\ detect_ats "" = ""
  /\ (forall c u',
        let u := String c u' in
        (exists before name sig after,
            ATS_PATTERNS = (before ++ (name, sig) :: after)%list
            /\ substring_of sig u
            /\ Forall (fun p => ~ substring_of (snd p) u) before
            /\ detect_ats u = name)
        \/ (Forall (fun p => ~ substring_of (snd p) u) ATS_PATTERNS
            /\ detect_ats u = "Internal"))
  /\ detect_ats "https://jobs.lever.co/acme" = "Lever"
  /\ detect_ats "https://acme.com/careers" = "Internal".
Proof.
  split; [reflexivity|]. split; [reflexivity|]. split; [|split; reflexivity].
  intros c u' u. assert (Hu : Str.truthy u = true) by reflexivity.
  unfold detect_ats. destruct (detect_ats_loop ATS_PATTERNS u) as [name|] eqn:E.
  - left. destruct (detect_ats_loop_some _ _ _ Hu E) as (before & sig & after & H1 & H2 & H3).
    exists before, name, sig, after. auto.
  - right. split; [apply (detect_ats_loop_none _ _ Hu E) | reflexivity].
Qed.

(** ** The HTTP helpers *)

Section Fetcher.

Variable W : world.

Lemma safe_get_run (u : string) (log : list request) :
  safe_get W u log =
    (Ok (match transport W log (get_request u) with
         | Ok r => if (status_code r <? 400)%Z then Some r else None
         | Raise _ => None
         end),
     (log ++ [get_request u])%list).
Proof.
  unfold safe_get, try_except, bind, requests_get, ret.
  destruct (transport W log (get_request u)) as [r|e]; [|reflexivity].
  destruct (status_code r <? 400)%Z; reflexivity.
Qed.

Lemma head_ok_run (u : string) (log : list request) :
  head_ok W u log =
    (Ok (below_400 (transport W log (head_request u))),
     (log ++ [head_request u])%list).
Proof.
  unfold head_ok, try_except, bind, requests_head, ret, below_400.
  destruct (transport W log (head_request u)) as [r|e]; reflexivity.
Qed.

End Fetcher.

(** C6.  Neither helper lets an exception through, and each issues one
    request.  [safe_get] returns the response exactly when the transport
    answers without raising and with a status below 400, and [None] when
    the transport raises or the status is 400 or more.  [head_ok] returns
    [True] exactly when the HEAD request is answered with a status below
    400, and [False] when it raises. *)
Theorem fetcher_never_raises (W : world) (u : string) (log : list request) :
  (exists v,
      safe_get W u log = (Ok v, (log ++ [get_request u])%list)
      /\ (forall r, v = Some r <->
            transport W log (get_request u) = Ok r /\ (status_code r < 400)%Z)
      /\ (v = None <->
            (exists e, transport W log (get_request u) = Raise e)
            \/ (exists r, transport W log (get_request u) = Ok r
                          /\ (400 <= status_code r)%Z)))
  /\ (exists b,
      head_ok W u log = (Ok b, (log ++ [head_request u])%list)
      /\ (b = true <->
            exists r, transport W log (head_request u) = Ok r
                      /\ (status_code r < 400)%Z)
      /\ ((exists e, transport W log (head_request u) = Raise e) -> b = false)).
Proof.
  split.
  - eexists. split; [apply safe_get_run|].
    destruct (transport W log (get_request u)) as [r|e].
    + destruct (Z.ltb_spec (status_code r) 400) as [H|H].
      * split.
        -- intros r'. split.
           ++ intros [= <-]. split; [reflexivity | exact H].
           ++ intros [[= ->] _]. reflexivity.
        -- split; [discriminate|].
           intros [[e He] | [r' [[= <-] Hr]]]; [discriminate | lia].
      * split.
        -- intros r'. split; [discriminate|]. intros [[= ->] Hr]. lia.
        -- split; [|reflexivity]. intros _. right. exists r. split; [reflexivity | exact H].
    + split.
      * intros r. split; [discriminate | intros [? _]; discriminate].
      * split; [|reflexivity]. intros _. left. exists e. reflexivity.
  - eexists. split; [apply head_ok_run|].
    unfold below_400. destruct (transport W log (head_request u)) as [r|e].
    + split.
      * destruct (Z.ltb_spec (status_code r) 400) as [H|H].
        -- split; [|reflexivity]. intros _. exists r. split; [reflexivity | exact H].
        -- split; [discriminate|]. intros [r' [[= <-] Hr]]. lia.
      * intros [e He]. discriminate.
    + split; [|reflexivity].
      split; [discriminate | intros [r [? _]]; discriminate].
Qed.

(** ** Guessing the website *)

Section Guess.

Variable W : world.
Variable nc : string.

Lemma guess_website_hit (before : list string) (tld : string) (after : list string) :
  forall log,
    (forall b1 t b2, before = (b1 ++ t :: b2)%list -> probe_ok W log nc b1 t = false) ->
    probe_ok W log nc before tld = true ->
    guess_website W nc (before ++ tld :: after) log =
      (Ok (test_url nc tld), (log ++ probes nc (before ++ [tld]))%list).
Proof.
  induction before as [|b before IH]; intros log Hfail Hok.
  - cbn [app guess_website]. unfold bind. rewrite head_ok_run.
    unfold probe_ok, probes in Hok. cbn [map] in Hok. rewrite app_nil_r in Hok.
    rewrite Hok. reflexivity.
  - cbn [app guess_website]. unfold bind. rewrite head_ok_run.
    pose proof (Hfail [] b before eq_refl) as H0.
    unfold probe_ok, probes in H0. cbn [map] in H0. rewrite app_nil_r in H0.
    rewrite H0. rewrite IH.
    + unfold probes. cbn [map app]. rewrite <- app_assoc. reflexivity.
    + intros b1 t b2 ->. specialize (Hfail (b :: b1) t b2 eq_refl).
      unfold probe_ok, probes in *. cbn [map] in Hfail.
      rewrite <- app_assoc. exact Hfail.
    + unfold probe_ok, probes in *. cbn [map] in Hok.
      rewrite <- app_assoc. exact Hok.
Qed.

Lemma guess_website_miss (tlds : list string) :
  forall log,
    (forall b1 t b2, tlds = (b1 ++ t :: b2)%list -> probe_ok W log nc b1 t = false) ->
    guess_website W nc tlds log = (Ok "", (log ++ probes nc tlds)%list).
Proof.
  induction tlds as [|b tlds IH]; intros log Hfail.
  - cbn. rewrite app_nil_r. reflexivity.
  - cbn [guess_website]. unfold bind. rewrite head_ok_run.
    pose proof (Hfail [] b tlds eq_refl) as H0.
    unfold probe_ok, probes in H0. cbn [map] in H0. rewrite app_nil_r in H0.
    rewrite H0. rewrite IH.
    + unfold probes. cbn [map app]. rewrite <- app_assoc. reflexivity.
    + intros b1 t b2 ->. specialize (Hfail (b :: b1) t b2 eq_refl).
      unfold probe_ok, probes in *. cbn [map] in Hfail.
      rewrite <- app_assoc. exact Hfail.
Qed.

(** The loop never raises, and leaves [website] empty or at one of the
    URLs it probed. *)
Lemma guess_website_value (tlds : list string) :
  forall log, exists w log',
    guess_website W nc tlds log = (Ok w, log')
    /\ (w = "" \/ In w (map (test_url nc) tlds)).
Proof.
  induction tlds as [|b tlds IH]; intros log.
  - exists "", log. split; [reflexivity | left; reflexivity].
  - cbn [guess_website]. unfold bind. rewrite head_ok_run.
    destruct (below_400 _).
    + eexists _, _. split; [reflexivity|]. right. left. reflexivity.
    + destruct (IH (log ++ [head_request (test_url nc b)])%list) as (w & log' & E & H).
      exists w, log'. split; [exact E|]. destruct H as [H|H]; [left | right; right]; exact H.
Qed.

End Guess.

(** ** The assembled row *)

Lemma fill_posts_row (jobs : list job) (c1 c2 c3 c4 c5 c6 : string) :
  let row :=
    fill_posts (seq 0 3) jobs
      [ ("Company Name", c1); ("Website URL", c2); ("Linkedin URL", c3);
        ("Careers Page URL", c4); ("Job listings page URL", c5);
        ("Provider", c6) ] in
  keys row = COLUMNS
  /\ companyName row = c1 /\ websiteURL row = c2 /\ linkedinURL row = c3
  /\ careersURL row = c4 /\ jobsListingURL row = c5 /\ provider row = c6
  /\ slots row = [nth 0 jobs empty_job; nth 1 jobs empty_job; nth 2 jobs empty_job].
Proof.
  destruct jobs as [|[u1 t1 l1 d1] [|[u2 t2 l2 d2] [|[u3 t3 l3 d3] rest]]];
    repeat split; reflexivity.
Qed.

Section Process.

Variable W : world.

(** What a run of [process_company] that returns went through. *)
Lemma process_company_inv (name : string) (log log' : list request) (row : dict) :
  process_company W name log = (Ok row, log') ->
  exists website careers jobs log1 log2,
    guess_website W (Str.strip name) TLDS log = (Ok website, log1)
    /\ careers_page W website log1 = (Ok careers, log2)
    /\ (if Str.truthy (py_or careers (py_or website ""))
        then scrape_jobs_simple W (py_or careers (py_or website ""))
        else ret []) log2 = (Ok jobs, log')
    /\ row =
        fill_posts (seq 0 3) jobs
          [ ("Company Name", Str.strip name);
            ("Website URL", website);
            ("Linkedin URL",
              "https://www.linkedin.com/company/"
                ++ Str.replace " " "-" (Str.lower (Str.strip name)) ++ "/");
            ("Careers Page URL", careers);
            ("Job listings page URL", py_or careers (py_or website ""));
            ("Provider", detect_ats (py_or careers (py_or website ""))) ].
Proof.
  unfold process_company, bind.
  destruct (guess_website W (Str.strip name) TLDS log)
    as [[website|e] log1] eqn:E1; [|discriminate].
  destruct (careers_page W website log1) as [[careers|e] log2] eqn:E2; [|discriminate].
  destruct ((if Str.truthy (py_or careers (py_or website ""))
             then scrape_jobs_simple W (py_or careers (py_or website ""))
             else ret []) log2) as [[jobs|e] log3] eqn:E3; [|discriminate].
  unfold ret. intros [= <- <-].
  exists website, careers, jobs, log1, log2. repeat split; trivial.
Qed.

End Process.

(** C3.  The website is guessed from the trimmed, lowercased name with
    its spaces removed: the candidates are [https://{name}.{tld}] for com,
    org, io, ai, net, co in that order.  The loop probes them in order and
    stops at the first probe that succeeds, whose URL becomes the website
    (so a live [.com] wins whatever the later candidates would answer);
    when every probe fails the website is empty.  The Website URL column of
    the row is that value. *)
Theorem website_is_first_live_candidate (W : world) (name : string) (log : list request) :
  let nc := Str.strip name in
  let norm := Str.replace " " "" (Str.lower nc) in
  candidates name =
    [ "https://" ++ norm ++ ".com"; "https://" ++ norm ++ ".org";
      "https://" ++ norm ++ ".io"; "https://" ++ norm ++ ".ai";
      "https://" ++ norm ++ ".net"; "https://" ++ norm ++ ".co" ]
  /\ (forall before tld after,
        TLDS = (before ++ tld :: after)%list ->
        (forall b1 t b2, before = (b1 ++ t :: b2)%list -> probe_ok W log nc b1 t = false) ->
        probe_ok W log nc before tld = true ->
        guess_website W nc TLDS log =
          (Ok (test_url nc tld), (log ++ probes nc (before ++ [tld]))%list))
  /\ (probe_ok W log nc [] "com" = true ->
        guess_website W nc TLDS log =
          (Ok ("https://" ++ norm ++ ".com"),
           (log ++ [head_request ("https://" ++ norm ++ ".com")])%list))
  /\ ((forall b1 t b2, TLDS = (b1 ++ t :: b2)%list -> probe_ok W log nc b1 t = false) ->
        guess_website W nc TLDS log = (Ok "", (log ++ probes nc TLDS)%list))
  /\ (forall row log',
        process_company W name log = (Ok row, log') ->
        exists log1, guess_website W nc TLDS log = (Ok (websiteURL row), log1)).
Proof.
  intros nc norm. split; [reflexivity|]. split; [|split; [|split]].
  - intros before tld after E Hfail Hok. rewrite E.
    apply guess_website_hit; assumption.
  - intros Hok.
    apply (guess_website_hit W nc [] "com" ["org"; "io"; "ai"; "net"; "co"] log); [|exact Hok].
    intros [|? ?] t b2 H; discriminate.
  - apply guess_website_miss.
  - intros row log' H.
    destruct (process_company_inv W name log log' row H)
      as (website & careers & jobs & log1 & log2 & Hg & _ & _ & ->).
    exists log1. fold nc in Hg. rewrite Hg.
    destruct (fill_posts_row jobs (Str.strip name) website
                ("https://www.linkedin.com/company/"
                   ++ Str.replace " " "-" (Str.lower (Str.strip name)) ++ "/")
                careers (py_or careers (py_or website ""))
                (detect_ats (py_or careers (py_or website ""))))
      as (_ & _ & Hw & _).
    rewrite Hw. reflexivity.
Qed.

(** The recorded web answers for both [acme.com] and [acme.io]; the
    website of Acme is the [.com] one, after a single probe. *)
Lemma website_is_first_live_candidate_witness :
  guess_website Demo.web (Str.strip " Acme ") TLDS [] =
    (Ok "https://acme.com", [head_request "https://acme.com"])
  /\ probe_ok Demo.web [] (Str.strip " Acme ") ["com"; "org"] "io" = true.
Proof.
  split; [|reflexivity].
  apply (proj1 (proj2 (proj2 (website_is_first_live_candidate Demo.web " Acme " [])))).
  reflexivity.
Defined.

(** ** The role pattern *)

Lemma imatch_here_prefix (lit s : string) :
  Str.imatch_here lit s = prefix (Str.lower lit) (Str.lower s).
Proof.
  revert s. induction lit as [|a lit IH]; intros [|b s]; cbn; try reflexivity.
  rewrite IH. destruct (ascii_dec (Str.lower_char a) (Str.lower_char b)) as [E|E].
  - rewrite E, Ascii.eqb_refl. reflexivity.
  - destruct (Ascii.eqb_spec (Str.lower_char b) (Str.lower_char a)); [congruence | reflexivity].
Qed.

Lemma existsb_pointwise {A} (f g : A -> bool) (l : list A) :
  (forall x, f x = g x) -> existsb f l = existsb g l.
Proof. intros H. induction l as [|x l IH]; cbn; [reflexivity | rewrite H, IH; reflexivity]. Qed.

Lemma In_firstn_In {A} (n : nat) (l : list A) (x : A) : In x (firstn n l) -> In x l.
Proof.
  revert l. induction n as [|n IH]; intros [|y l]; cbn; try contradiction.
  intros [H|H]; [left; exact H | right; apply IH, H].
Qed.

Lemma existsb_orb {A} (f g : A -> bool) (l : list A) :
  existsb (fun x => f x || g x) l = existsb f l || existsb g l.
Proof.
  induction l as [|x l IH]; cbn; [reflexivity|]. rewrite IH.
  destruct (f x), (g x), (existsb f l), (existsb g l); reflexivity.
Qed.

Lemma re_search_i_contains (alts : list string) (s : string) :
  Str.re_search_i alts s =
    existsb (fun lit => Str.contains (Str.lower lit) (Str.lower s)) alts.
Proof.
  induction s as [|c s IH]; cbn [Str.re_search_i Str.lower Str.contains].
  - rewrite orb_false_r. apply existsb_pointwise. intros lit.
    rewrite orb_false_r. apply imatch_here_prefix.
  - rewrite existsb_orb, <- IH. f_equal. apply existsb_pointwise. intros lit.
    apply (imatch_here_prefix lit (String c s)).
Qed.

Lemma re_search_role_title (t : string) :
  Str.re_search_i ROLE_KEYWORDS t = true <-> role_title t.
Proof.
  rewrite re_search_i_contains, existsb_exists. unfold role_title. split.
  - intros (kw & Hin & H). apply contains_spec in H.
    exists (Str.lower kw). split; [|exact H].
    cbn in Hin. repeat (destruct Hin as [<-|Hin]; [cbn; tauto|]). contradiction.
  - intros (kw & Hin & H). exists kw. split; [exact Hin|].
    apply contains_spec.
    replace (Str.lower kw) with kw; [exact H|].
    cbn in Hin. repeat (destruct Hin as [<-|Hin]; [reflexivity|]). contradiction.
Qed.

Lemma truthy_true (s : string) : Str.truthy s = true <-> s <> "".
Proof. destruct s; cbn; split; congruence. Qed.

Lemma truthy_false (s : string) : Str.truthy s = false <-> s = "".
Proof. destruct s; cbn; split; congruence. Qed.

(** ** The job extractor *)

Section Scrape.

Variable W : world.
Variable listings_url : string.

Lemma scrape_loop_spec (anchors : list anchor) :
  forall jobs,
    length jobs < 3 ->
    scrape_loop W listings_url anchors jobs =
      (ps <~ traverse (posting W listings_url)
               (firstn (3 - length jobs) (filter job_anchor anchors)) ;;
       Ok (jobs ++ ps)%list).
Proof.
  induction anchors as [|a rest IH]; intros jobs Hlen.
  - cbn [scrape_loop filter]. rewrite firstn_nil. cbn. rewrite app_nil_r. reflexivity.
  - cbn [scrape_loop filter]. unfold job_anchor at 1.
    destruct (Str.truthy (get_text a)); cbn [negb andb]; [|apply IH, Hlen].
    destruct (Str.re_search_i ROLE_KEYWORDS (get_text a)); cbn [andb].
    + destruct (Str.truthy (href a)); cbn [negb]; [|apply IH, Hlen].
      replace (3 - length jobs) with (S (2 - length jobs)) by lia.
      cbn [firstn traverse]. unfold posting at 1.
      destruct (Str.startswith (href a) "http"); cbn [negb rbind].
      * rewrite length_app. cbn [length].
        destruct (Nat.leb_spec 3 (length jobs + 1)) as [H3|H3].
        -- replace (2 - length jobs) with 0 by lia. reflexivity.
        -- rewrite IH by (rewrite length_app; cbn; lia).
           rewrite length_app. cbn [length].
           replace (3 - (length jobs + 1)) with (2 - length jobs) by lia.
           destruct (traverse _ _) as [ps|e]; cbn [rbind]; [|reflexivity].
           rewrite <- app_assoc. reflexivity.
      * destruct (urljoin W listings_url (href a)) as [job_url|e]; cbn [rbind]; [|reflexivity].
        rewrite length_app. cbn [length].
        destruct (Nat.leb_spec 3 (length jobs + 1)) as [H3|H3].
        -- replace (2 - length jobs) with 0 by lia. reflexivity.
        -- rewrite IH by (rewrite length_app; cbn; lia).
           rewrite length_app. cbn [length].
           replace (3 - (length jobs + 1)) with (2 - length jobs) by lia.
           destruct (traverse _ _) as [ps|e]; cbn [rbind]; [|reflexivity].
           rewrite <- app_assoc. reflexivity.
    + destruct (Nat.leb_spec 3 (length jobs)) as [H3|H3]; [lia | apply IH, Hlen].
Qed.

Lemma scrape_jobs_simple_run (log : list request) :
  scrape_jobs_simple W listings_url log =
    (match transport W log (get_request listings_url) with
     | Ok r =>
         if (status_code r <? 400)%Z
         then traverse (posting W listings_url)
                (firstn 3 (filter job_anchor (select_a_href W (text r))))
         else Ok []
     | Raise _ => Ok []
     end,
     (log ++ [get_request listings_url])%list).
Proof.
  unfold scrape_jobs_simple, bind. rewrite safe_get_run.
  destruct (transport W log (get_request listings_url)) as [r|e]; [|reflexivity].
  destruct (status_code r <? 400)%Z; [|reflexivity].
  unfold lift. rewrite scrape_loop_spec by (cbn; lia). cbn [length Nat.sub].
  destruct (traverse _ _); reflexivity.
Qed.

Lemma traverse_length {A B} (f : A -> result B) (l : list A) (ys : list B) :
  traverse f l = Ok ys -> length ys = length l.
Proof.
  revert ys. induction l as [|x l IH]; cbn; intros ys.
  - intros [= <-]. reflexivity.
  - destruct (f x) as [y|e]; cbn; [|discriminate].
    destruct (traverse f l) as [ys'|e]; cbn; [|discriminate].
    intros [= <-]. cbn. f_equal. apply IH. reflexivity.
Qed.

Lemma traverse_Forall {A B} (f : A -> result B) (Q : A -> Prop) (P : B -> Prop)
    (l : list A) (ys : list B) :
  (forall x y, Q x -> f x = Ok y -> P y) ->
  Forall Q l -> traverse f l = Ok ys -> Forall P ys.
Proof.
  intros HQP. revert ys. induction l as [|x l IH]; cbn; intros ys HQ.
  - intros [= <-]. constructor.
  - inversion HQ as [|? ? Hx Hl]; subst.
    destruct (f x) as [y|e] eqn:E; cbn; [|discriminate].
    destruct (traverse f l) as [ys'|e]; cbn; [|discriminate].
    intros [= <-]. constructor; [apply (HQP x y Hx E) | apply IH; trivial].
Qed.

Lemma scrape_jobs_simple_inv (log : list request) (jobs : list job) :
  fst (scrape_jobs_simple W listings_url log) = Ok jobs ->
  jobs = []
  \/ exists r,
      transport W log (get_request listings_url) = Ok r
      /\ traverse (posting W listings_url)
           (firstn 3 (filter job_anchor (select_a_href W (text r)))) = Ok jobs.
Proof.
  rewrite scrape_jobs_simple_run. cbn [fst].
  destruct (transport W log (get_request listings_url)) as [r|e].
  - destruct (status_code r <? 400)%Z.
    + intros H. right. exists r. split; [reflexivity | exact H].
    + intros [= <-]. left. reflexivity.
  - intros [= <-]. left. reflexivity.
Qed.

Lemma scrape_jobs_simple_length (log : list request) (jobs : list job) :
  fst (scrape_jobs_simple W listings_url log) = Ok jobs -> length jobs <= 3.
Proof.
  intros H. apply scrape_jobs_simple_inv in H.
  destruct H as [->|(r & _ & H)]; [cbn; lia|].
  apply traverse_length in H. rewrite H, length_firstn. lia.
Qed.

End Scrape.

(** C5.  [scrape_jobs_simple] issues one GET; when that fails it returns
    no posting, and otherwise its postings are those of the first three
    anchors, in document order, whose visible text is non-empty and matches
    the role pattern and whose href is non-empty.  So it never returns more
    than three; an anchor without visible text is passed over whatever its
    href; and an anchor whose title matches but whose href is empty is
    passed over without adding to the postings counted against the limit. *)
Theorem scrape_first_three (W : world) (listings_url : string) (log : list request) :
  scrape_jobs_simple W listings_url log =
    (match transport W log (get_request listings_url) with
     | Ok r =>
         if (status_code r <? 400)%Z
         then traverse (posting W listings_url)
                (firstn 3 (filter job_anchor (select_a_href W (text r))))
         else Ok []
     | Raise _ => Ok []
     end,
     (log ++ [get_request listings_url])%list)
  /\ (forall jobs,
        fst (scrape_jobs_simple W listings_url log) = Ok jobs -> length jobs <= 3)
  /\ (forall a,
        job_anchor a = true <->
        get_text a <> ""
        /\ Str.re_search_i ROLE_KEYWORDS (get_text a) = true
        /\ href a <> "")
  /\ (forall a rest jobs,
        get_text a = "" ->
        scrape_loop W listings_url (a :: rest) jobs
          = scrape_loop W listings_url rest jobs)
  /\ (forall a rest jobs,
        Str.re_search_i ROLE_KEYWORDS (get_text a) = true ->
        href a = "" ->
        scrape_loop W listings_url (a :: rest) jobs
          = scrape_loop W listings_url rest jobs).
Proof.
  split; [apply scrape_jobs_simple_run|]. split; [|split; [|split]].
  - apply scrape_jobs_simple_length.
  - intros a. unfold job_anchor. rewrite !andb_true_iff, !truthy_true. tauto.
  - intros a rest jobs E. cbn [scrape_loop]. rewrite E. reflexivity.
  - intros a rest jobs Hm E. cbn [scrape_loop]. rewrite Hm, E.
    destruct (Str.truthy (get_text a)); reflexivity.
Qed.

(** On the recorded careers page of Acme only the third of six anchors
    has a role title. *)
Lemma scrape_first_three_witness :
  fst (scrape_jobs_simple Demo.web "https://acme.com/careers" [])
    = Ok [mk_job "https://acme.com/jobs/42" "Senior Engineer" "" ""]
  /\ length [mk_job "https://acme.com/jobs/42" "Senior Engineer" "" ""] <= 3.
Proof.
  split; [reflexivity|].
  apply (proj1 (proj2 (scrape_first_three Demo.web "https://acme.com/careers" []))).
  reflexivity.
Defined.

(** On a page whose texts have code points below 256 only, and where
    [urljoin] does not return the empty string for a non-empty href: every
    posting has a title whose lowercased form holds a role keyword, a
    non-empty url, and an empty location and date.  (Module [Wide] drops
    both restrictions.) *)
Theorem postings_well_formed (W : world) (listings_url : string)
    (log : list request) (jobs : list job) :
  (forall page h joined,
      transport W log (get_request listings_url) = Ok page ->
      h <> "" -> Str.startswith h "http" = false ->
      urljoin W listings_url h = Ok joined -> joined <> "") ->
  fst (scrape_jobs_simple W listings_url log) = Ok jobs ->
  Forall (fun j =>
            title j <> "" /\ role_title (title j) /\ url j <> ""
            /\ location j = "" /\ date j = "") jobs.
Proof.
  intros Hjoin H. apply scrape_jobs_simple_inv in H.
  destruct H as [->|(r & Hr & H)]; [constructor|].
  refine (traverse_Forall _ (fun a => job_anchor a = true) _ _ _ _ _ H).
  - intros a j Ha. unfold job_anchor in Ha.
    apply andb_true_iff in Ha. destruct Ha as [Ha Hh].
    apply andb_true_iff in Ha. destruct Ha as [Ht Hm].
    apply truthy_true in Ht, Hh. apply re_search_role_title in Hm.
    unfold posting. destruct (Str.startswith (href a) "http") eqn:Hp.
    + cbn. intros [= <-]. cbn. auto.
    + destruct (urljoin W listings_url (href a)) as [u|e] eqn:E; cbn; [|discriminate].
      intros [= <-]. cbn. repeat split; trivial. apply (Hjoin r _ _ Hr Hh Hp E).
  - apply Forall_forall. intros a Ha.
    apply In_firstn_In, filter_In in Ha. apply Ha.
Qed.

Lemma postings_well_formed_witness :
  (forall page h joined,
      transport Demo.web [] (get_request "https://acme.com/careers") = Ok page ->
      h <> "" -> Str.startswith h "http" = false ->
      urljoin Demo.web "https://acme.com/careers" h = Ok joined -> joined <> "")
  /\ fst (scrape_jobs_simple Demo.web "https://acme.com/careers" [])
     = Ok [mk_job "https://acme.com/jobs/42" "Senior Engineer" "" ""]
  /\ Forall (fun j =>
               title j <> "" /\ role_title (title j) /\ url j <> ""
               /\ location j = "" /\ date j = "")
       [mk_job "https://acme.com/jobs/42" "Senior Engineer" "" ""].
Proof.
  assert (Hjoin : forall page h joined,
            transport Demo.web [] (get_request "https://acme.com/careers") = Ok page ->
            h <> "" -> Str.startswith h "http" = false ->
            urljoin Demo.web "https://acme.com/careers" h = Ok joined -> joined <> "").
  { intros page h r _ _ _. cbn. destruct (h =? "/jobs/42"); intros [= <-]; discriminate. }
  split; [exact Hjoin|]. split; [reflexivity|].
  apply (postings_well_formed Demo.web "https://acme.com/careers" [] _ Hjoin).
  reflexivity.
Defined.

(** ** Trimming does not hide a keyword *)

Lemma isspace_lower_char (c : ascii) :
  Str.isspace (Str.lower_char c) = Str.isspace c.
Proof. destruct c as [[] [] [] [] [] [] [] []]; reflexivity. Qed.

Lemma prefix_space_head (k : ascii) (p : string) (c : ascii) (x : string) :
  spaceless (String k p) = true -> Str.isspace c = true ->
  prefix (String k p) (String (Str.lower_char c) x) = false.
Proof.
  cbn. intros Hk Hc. apply andb_true_iff in Hk. destruct Hk as [Hk _].
  destruct (ascii_dec k (Str.lower_char c)) as [->|]; [|reflexivity].
  rewrite isspace_lower_char, Hc in Hk. discriminate.
Qed.

Lemma contains_lower_lstrip (kw s : string) :
  spaceless kw = true -> kw <> "" ->
  Str.contains kw (Str.lower (Str.lstrip s)) = Str.contains kw (Str.lower s).
Proof.
  intros Hkw Hne. destruct kw as [|k p]; [congruence|].
  induction s as [|c s IH]; [reflexivity|].
  cbn [Str.lstrip]. destruct (Str.isspace c) eqn:Hc; [|reflexivity].
  rewrite IH. cbn [Str.lower Str.contains].
  rewrite (prefix_space_head k p c _ Hkw Hc). reflexivity.
Qed.

Lemma rstrip_empty_no_keyword (kw s : string) :
  spaceless kw = true -> kw <> "" -> Str.rstrip s = "" ->
  Str.contains kw (Str.lower s) = false.
Proof.
  intros Hkw Hne. destruct kw as [|k p]; [congruence|].
  induction s as [|c s IH]; [reflexivity|].
  cbn [Str.rstrip]. destruct (Str.isspace c) eqn:Hc; cbn [andb]; [|discriminate].
  destruct (Str.rstrip s) eqn:Er; cbn [Str.truthy negb]; [|discriminate].
  intros _. cbn [Str.lower Str.contains].
  rewrite (prefix_space_head k p c _ Hkw Hc), IH; reflexivity.
Qed.

Lemma prefix_lower_rstrip (p t : string) :
  spaceless p = true ->
  prefix p (Str.lower (Str.rstrip t)) = prefix p (Str.lower t).
Proof.
  revert p. induction t as [|d t IH]; intros p Hp; [reflexivity|].
  destruct p as [|k p]; [destruct (Str.lower (Str.rstrip (String d t))); reflexivity|].
  cbn [Str.rstrip].
  destruct (Str.isspace d && negb (Str.truthy (Str.rstrip t))) eqn:E.
  - apply andb_true_iff in E. destruct E as [Hd _].
    cbn [Str.lower]. rewrite (prefix_space_head k p d _ Hp Hd). reflexivity.
  - cbn [Str.lower prefix]. destruct (ascii_dec k (Str.lower_char d)); [|reflexivity].
    apply IH. cbn in Hp. apply andb_true_iff in Hp. apply Hp.
Qed.

Lemma contains_lower_rstrip (kw s : string) :
  spaceless kw = true -> kw <> "" ->
  Str.contains kw (Str.lower (Str.rstrip s)) = Str.contains kw (Str.lower s).
Proof.
  intros Hkw Hne. induction s as [|c s IH]; [reflexivity|].
  cbn [Str.rstrip].
  destruct (Str.isspace c && negb (Str.truthy (Str.rstrip s))) eqn:E.
  - apply andb_true_iff in E. destruct E as [Hc Hr].
    apply negb_true_iff, truthy_false in Hr.
    rewrite (rstrip_empty_no_keyword kw (String c s) Hkw Hne).
    + destruct kw; [congruence | reflexivity].
    + cbn [Str.rstrip]. rewrite Hc, Hr. reflexivity.
  - cbn [Str.lower Str.contains]. rewrite IH. f_equal.
    pose proof (prefix_lower_rstrip kw (String c s) Hkw) as H.
    cbn [Str.rstrip] in H. rewrite E in H. exact H.
Qed.

Lemma contains_lower_strip (kw s : string) :
  spaceless kw = true -> kw <> "" ->
  Str.contains kw (Str.lower (Str.strip s)) = Str.contains kw (Str.lower s).
Proof.
  intros Hkw Hne. unfold Str.strip.
  rewrite contains_lower_rstrip, contains_lower_lstrip; trivial.
Qed.

Lemma careers_keywords_spaceless (kw : string) :
  In kw CAREERS_KEYWORDS -> spaceless kw = true /\ kw <> "".
Proof.
  cbn. intros H.
  repeat (destruct H as [<-|H]; [split; [reflexivity | discriminate]|]).
  contradiction.
Qed.

(** ** The careers-link locator *)

Lemma any_careers_keyword_strip (a : anchor) :
  any_careers_keyword (Str.strip (href a)) (Str.lower (get_text a)) = true
  <-> careers_anchor a.
Proof.
  unfold any_careers_keyword, careers_anchor. rewrite existsb_exists. split.
  - intros (kw & Hin & H). exists kw. split; [exact Hin|].
    destruct (careers_keywords_spaceless kw Hin) as [Hs Hne].
    rewrite (contains_lower_strip kw _ Hs Hne) in H.
    apply orb_true_iff in H. rewrite !contains_spec in H. exact H.
  - intros (kw & Hin & H). exists kw. split; [exact Hin|].
    destruct (careers_keywords_spaceless kw Hin) as [Hs Hne].
    rewrite (contains_lower_strip kw _ Hs Hne).
    apply orb_true_iff. rewrite !contains_spec. exact H.
Qed.

Section Careers.

Variable W : world.
Variable base_url : string.

Lemma find_careers_loop_first (before : list anchor) (a : anchor) (after : list anchor) :
  Forall (fun b => ~ careers_anchor b) before ->
  careers_anchor a ->
  find_careers_loop W base_url (before ++ a :: after) =
    (if Str.startswith (Str.strip (href a)) "http" then Ok (Str.strip (href a))
     else urljoin W base_url (Str.strip (href a))).
Proof.
  intros Hb Ha. induction Hb as [|b before Hnb Hb IH]; cbn [app find_careers_loop].
  - apply any_careers_keyword_strip in Ha. rewrite Ha.
    destruct (Str.startswith (Str.strip (href a)) "http"); reflexivity.
  - destruct (any_careers_keyword (Str.strip (href b)) (Str.lower (get_text b))) eqn:E;
      [|exact IH].
    apply any_careers_keyword_strip in E. contradiction.
Qed.

Lemma find_careers_loop_none (anchors : list anchor) :
  Forall (fun b => ~ careers_anchor b) anchors ->
  find_careers_loop W base_url anchors = Ok "".
Proof.
  intros H. induction H as [|b rest Hnb Hb IH]; cbn [find_careers_loop]; [reflexivity|].
  destruct (any_careers_keyword (Str.strip (href b)) (Str.lower (get_text b))) eqn:E;
    [|exact IH].
  apply any_careers_keyword_strip in E. contradiction.
Qed.

End Careers.

(** What [find_careers] computes.  It goes by the first anchor, in
    document order, whose lowercased href or lowercased visible text
    contains one of career, careers, jobs, join; an earlier match wins over
    a later one.  Of that anchor it takes the href trimmed of surrounding
    whitespace: when this begins with the four characters [http] it is
    returned as it is, and otherwise what [urljoin] makes of the base URL
    and it is returned.  Without a matching anchor the result is the empty
    string. *)
Theorem find_careers_first_match (W : world) (base_url html : string) :
  (forall before a after,
      select_a_href W html = (before ++ a :: after)%list ->
      Forall (fun b => ~ careers_anchor b) before ->
      careers_anchor a ->
      (Str.startswith (Str.strip (href a)) "http" = true ->
         find_careers W base_url html = Ok (Str.strip (href a)))
      /\ (Str.startswith (Str.strip (href a)) "http" = false ->
          forall joined,
            urljoin W base_url (Str.strip (href a)) = Ok joined ->
            find_careers W base_url html = Ok joined))
  /\ (Forall (fun b => ~ careers_anchor b) (select_a_href W html) ->
        find_careers W base_url html = Ok "").
Proof.
  split.
  - intros before a after E Hb Ha. unfold find_careers. rewrite E.
    rewrite (find_careers_loop_first W base_url before a after Hb Ha).
    split.
    + intros ->. reflexivity.
    + intros -> joined ->. reflexivity.
  - intros H. apply find_careers_loop_none, H.
Qed.

(** The homepage of Acme has one anchor, a relative link to [/careers]. *)
Lemma find_careers_first_match_witness :
  select_a_href Demo.web Demo.acme_home = ([] ++ mk_anchor "/careers" "Careers" :: [])%list
  /\ careers_anchor (mk_anchor "/careers" "Careers")
  /\ find_careers Demo.web "https://acme.com" Demo.acme_home
     = Ok "https://acme.com/careers".
Proof.
  assert (Ha : careers_anchor (mk_anchor "/careers" "Careers")).
  { exists "career". split; [left; reflexivity|]. left. apply contains_spec. reflexivity. }
  split; [reflexivity|]. split; [exact Ha|].
  apply (proj2 (proj1 (find_careers_first_match Demo.web "https://acme.com" Demo.acme_home)
                  [] (mk_anchor "/careers" "Careers") [] eq_refl (Forall_nil _) Ha));
    reflexivity.
Defined.

(** C4.  The locator is to hand back an absolute URL, joining an href
    that is not absolute with the base URL, and the code sets out to do so;
    but it takes every href that begins with [http] for absolute.  On the
    recorded homepage of RelPath the anchor [href='httpd/careers.html'] is
    handed back as it is: not absolute, and not the joined URL
    [https://relpath.com/httpd/careers.html]. *)
Lemma find_careers_keeps_relative_href :
  find_careers Demo.web "https://relpath.com" Demo.relpath_home
    = Ok "httpd/careers.html"
  /\ spec_is_absolute "httpd/careers.html" = false
  /\ spec_find_careers Demo.web "https://relpath.com" Demo.relpath_home
     = Ok "https://relpath.com/httpd/careers.html"
  /\ find_careers Demo.web "https://relpath.com" Demo.relpath_home
     <> spec_find_careers Demo.web "https://relpath.com" Demo.relpath_home.
Proof. repeat split; try reflexivity. discriminate. Qed.

(** ** The pipeline *)

Section ProcessFacts.

Variable W : world.

Lemma padded_slots (jobs : list job) :
  length jobs <= 3 ->
  [nth 0 jobs empty_job; nth 1 jobs empty_job; nth 2 jobs empty_job]
    = (jobs ++ repeat empty_job (3 - length jobs))%list.
Proof.
  destruct jobs as [|j1 [|j2 [|j3 [|j4 rest]]]]; cbn; intros H; try reflexivity; lia.
Qed.

(** The row of a run that returns: the eighteen columns in their order,
    the trimmed name, and three job slots, the extracted postings first
    and empty ones after them. *)
Lemma process_company_row_shape (name : string) (log log' : list request) (row : dict) :
  process_company W name log = (Ok row, log') ->
  keys row = COLUMNS
  /\ companyName row = Str.strip name
  /\ length (slots row) = 3
  /\ exists jobs,
       length jobs <= 3
       /\ slots row = (jobs ++ repeat empty_job (3 - length jobs))%list.
Proof.
  intros H.
  destruct (process_company_inv W name log log' row H)
    as (website & careers & jobs & log1 & log2 & _ & _ & Hj & ->).
  destruct (fill_posts_row jobs (Str.strip name) website
              ("https://www.linkedin.com/company/"
                 ++ Str.replace " " "-" (Str.lower (Str.strip name)) ++ "/")
              careers (py_or careers (py_or website ""))
              (detect_ats (py_or careers (py_or website ""))))
    as (Hk & Hn & _ & _ & _ & _ & _ & Hs).
  split; [exact Hk|]. split; [exact Hn|]. split; [rewrite Hs; reflexivity|].
  exists jobs.
  assert (Hlen : length jobs <= 3).
  { destruct (Str.truthy (py_or careers (py_or website ""))).
    - apply (scrape_jobs_simple_length W (py_or careers (py_or website "")) log2).
      rewrite Hj. reflexivity.
    - unfold ret in Hj. injection Hj as <- _. cbn. lia. }
  split; [exact Hlen|]. rewrite Hs. apply padded_slots, Hlen.
Qed.

(** With the parser and [resp.text] taken as total, as [world] has
    them, [urljoin] is the only call left that can raise: where it does
    not, [process_company] returns a row. *)
Lemma process_company_returns (name : string) (log : list request) :
  (forall base h, exists joined, urljoin W base h = Ok joined) ->
  exists row log', process_company W name log = (Ok row, log').
Proof.
  intros Hjoin.
  assert (Hfind : forall base anchors, exists c, find_careers_loop W base anchors = Ok c).
  { intros base anchors. induction anchors as [|a rest IH]; cbn [find_careers_loop].
    - exists "". reflexivity.
    - destruct (any_careers_keyword _ _); [|exact IH].
      destruct (negb _); [apply Hjoin | eexists; reflexivity]. }
  assert (Htrav : forall u l, exists ps, traverse (posting W u) l = Ok ps).
  { intros u l. induction l as [|a l [ps IH]]; cbn [traverse].
    - exists []. reflexivity.
    - unfold posting at 1. destruct (Str.startswith (href a) "http").
      + cbn [rbind]. rewrite IH. eexists. reflexivity.
      + destruct (Hjoin u (href a)) as [j ->]. cbn [rbind]. rewrite IH.
        eexists. reflexivity. }
  unfold process_company, bind.
  destruct (guess_website_value W (Str.strip name) TLDS log) as (website & log1 & -> & _).
  assert (Hc : exists careers log2, careers_page W website log1 = (Ok careers, log2)).
  { unfold careers_page. destruct (Str.truthy website); [|eexists _, _; reflexivity].
    unfold bind. rewrite safe_get_run.
    destruct (match transport W log1 (get_request website) with
              | Ok r => if (status_code r <? 400)%Z then Some r else None
              | Raise _ => None
              end) as [r|]; [|eexists _, _; reflexivity].
    unfold lift, find_careers.
    destruct (Hfind website (select_a_href W (text r))) as [c ->].
    eexists _, _. reflexivity. }
  destruct Hc as (careers & log2 & ->).
  destruct (Str.truthy (py_or careers (py_or website ""))).
  - rewrite scrape_jobs_simple_run.
    destruct (transport W log2 (get_request (py_or careers (py_or website "")))) as [r|e];
      [|eexists _, _; reflexivity].
    destruct (status_code r <? 400)%Z; [|eexists _, _; reflexivity].
    destruct (Htrav (py_or careers (py_or website ""))
                (firstn 3 (filter job_anchor (select_a_href W (text r))))) as [ps ->].
    eexists _, _. reflexivity.
  - eexists _, _. reflexivity.
Qed.

End ProcessFacts.

(** C1.  [process_company] does not return a row for every name: on the
    recorded site of Brackets, whose homepage has the careers anchor
    [href='//[careers'], [urljoin] raises [ValueError] and the pipeline
    raises with it, after the probe and the fetch of the homepage. *)
Theorem process_company_raises_on_unjoinable_href :
  process_company Demo.web "Brackets" [] =
    (Raise ValueError,
     [head_request "https://brackets.com"; get_request "https://brackets.com"])
  /\ select_a_href Demo.web Demo.brackets_home = [mk_anchor "//[careers" "Careers"]
  /\ urljoin Demo.web "https://brackets.com" "//[careers" = Raise ValueError.
Proof. repeat split. Qed.

(** C7.  In a row that [process_company] returns, the job-listings URL is
    the careers URL when that is not empty, else the website when that is
    not empty, else empty.  When no candidate probes successfully, the
    pipeline returns a row whose website, careers URL, job-listings URL
    and provider are empty and whose three job slots are empty. *)
Theorem jobs_listing_url_fallback (W : world) (name : string) (log : list request) :
  (forall row log',
      process_company W name log = (Ok row, log') ->
      jobsListingURL row =
        (if Str.truthy (careersURL row) then careersURL row
         else if Str.truthy (websiteURL row) then websiteURL row
         else ""))
  /\ ((forall b1 t b2,
          TLDS = (b1 ++ t :: b2)%list -> probe_ok W log (Str.strip name) b1 t = false) ->
      exists row,
        process_company W name log
          = (Ok row, (log ++ probes (Str.strip name) TLDS)%list)
        /\ websiteURL row = "" /\ careersURL row = ""
        /\ jobsListingURL row = "" /\ provider row = ""
        /\ slots row = [empty_job; empty_job; empty_job]).
Proof.
  split.
  - intros row log' H.
    destruct (process_company_inv W name log log' row H)
      as (website & careers & jobs & log1 & log2 & _ & _ & _ & ->).
    destruct (fill_posts_row jobs (Str.strip name) website
                ("https://www.linkedin.com/company/"
                   ++ Str.replace " " "-" (Str.lower (Str.strip name)) ++ "/")
                careers (py_or careers (py_or website ""))
                (detect_ats (py_or careers (py_or website ""))))
      as (_ & _ & Hw & _ & Hc & Hj & _).
    rewrite Hw, Hc, Hj. reflexivity.
  - intros Hfail. unfold process_company, bind.
    rewrite (guess_website_miss W (Str.strip name) TLDS log Hfail).
    eexists. split; [reflexivity|]. repeat split; reflexivity.
Qed.

(** No site of the recorded web answers for Nowhere. *)
Lemma jobs_listing_url_fallback_witness :
  (forall b1 t b2,
      TLDS = (b1 ++ t :: b2)%list ->
      probe_ok Demo.web [] (Str.strip "Nowhere") b1 t = false)
  /\ exists row,
      process_company Demo.web "Nowhere" []
        = (Ok row, ([] ++ probes (Str.strip "Nowhere") TLDS)%list)
      /\ websiteURL row = "" /\ careersURL row = ""
      /\ jobsListingURL row = "" /\ provider row = ""
      /\ slots row = [empty_job; empty_job; empty_job].
Proof.
  assert (Hfail : forall b1 t b2,
            TLDS = (b1 ++ t :: b2)%list ->
            probe_ok Demo.web [] (Str.strip "Nowhere") b1 t = false).
  { intros b1 t b2 E. assert (Hin : In t TLDS) by (rewrite E; apply in_elt).
    unfold probe_ok. cbn [Demo.web transport].
    cbn in Hin. repeat (destruct Hin as [<-|Hin]; [reflexivity|]). contradiction. }
  split; [exact Hfail|].
  apply (proj2 (jobs_listing_url_fallback Demo.web "Nowhere" []) Hfail).
Defined.

(** C9.  In a row that [process_company] returns, the LinkedIn URL is the
    template filled with the trimmed, lowercased name, its spaces turned
    into hyphens; it is never empty, and for a name that trims to nothing
    it is [https://www.linkedin.com/company//]. *)
Theorem linkedin_always_populated (W : world) (name : string)
    (log log' : list request) (row : dict) :
  process_company W name log = (Ok row, log') ->
  linkedinURL row =
    "https://www.linkedin.com/company/"
      ++ Str.replace " " "-" (Str.lower (Str.strip name)) ++ "/"
  /\ linkedinURL row <> ""
  /\ (Str.strip name = "" -> linkedinURL row = "https://www.linkedin.com/company//").
Proof.
  intros H.
  destruct (process_company_inv W name log log' row H)
    as (website & careers & jobs & log1 & log2 & _ & _ & _ & ->).
  destruct (fill_posts_row jobs (Str.strip name) website
              ("https://www.linkedin.com/company/"
                 ++ Str.replace " " "-" (Str.lower (Str.strip name)) ++ "/")
              careers (py_or careers (py_or website ""))
              (detect_ats (py_or careers (py_or website ""))))
    as (_ & _ & _ & Hl & _).
  rewrite Hl. split; [reflexivity|]. split; [discriminate|].
  intros ->. reflexivity.
Qed.

(** A name of blanks only: the row comes back with the bare template. *)
Lemma linkedin_always_populated_witness :
  Str.strip "   " = ""
  /\ exists row log',
      process_company Demo.web "   " [] = (Ok row, log')
      /\ linkedinURL row = "https://www.linkedin.com/company//".
Proof.
  split; [reflexivity|].
  eexists _, _. split; [reflexivity|].
  refine (proj2 (proj2 (linkedin_always_populated Demo.web "   " [] _ _ _)) eq_refl).
  reflexivity.
Defined.

(** ** Runs on a stable network *)

Lemma log_free_ret {A} (a : A) : log_free (ret a).
Proof. intros l1 l2. reflexivity. Qed.

Lemma log_free_lift {A} (r : result A) : log_free (lift r).
Proof. intros l1 l2. reflexivity. Qed.

Lemma log_free_bind {A B} (m : io A) (k : A -> io B) :
  log_free m -> (forall a, log_free (k a)) -> log_free (bind m k).
Proof.
  intros Hm Hk l1 l2. unfold bind. specialize (Hm l1 l2).
  destruct (m l1) as [[a1|e1] l1'], (m l2) as [[a2|e2] l2']; cbn in Hm;
    try discriminate; injection Hm as <-; [apply Hk | reflexivity].
Qed.

Section Stable.

Variable W : world.
Hypothesis Hstable : stable W.

Lemma log_free_safe_get (u : string) : log_free (safe_get W u).
Proof.
  intros l1 l2. rewrite !safe_get_run. cbn [fst].
  rewrite (Hstable l1 l2). reflexivity.
Qed.

Lemma log_free_head_ok (u : string) : log_free (head_ok W u).
Proof.
  intros l1 l2. rewrite !head_ok_run. cbn [fst].
  rewrite (Hstable l1 l2). reflexivity.
Qed.

Lemma log_free_guess_website (nc : string) (tlds : list string) :
  log_free (guess_website W nc tlds).
Proof.
  induction tlds as [|tld rest IH]; cbn [guess_website].
  - apply log_free_ret.
  - apply log_free_bind; [apply log_free_head_ok|].
    intros [|]; [apply log_free_ret | exact IH].
Qed.

Lemma log_free_careers_page (website : string) : log_free (careers_page W website).
Proof.
  unfold careers_page. destruct (Str.truthy website); [|apply log_free_ret].
  apply log_free_bind; [apply log_free_safe_get|].
  intros [r|]; [apply log_free_lift | apply log_free_ret].
Qed.

Lemma log_free_scrape_jobs_simple (u : string) : log_free (scrape_jobs_simple W u).
Proof.
  unfold scrape_jobs_simple. apply log_free_bind; [apply log_free_safe_get|].
  intros [r|]; [apply log_free_lift | apply log_free_ret].
Qed.

Lemma log_free_process_company (name : string) : log_free (process_company W name).
Proof.
  unfold process_company.
  apply log_free_bind; [apply log_free_guess_website|]. intros website.
  apply log_free_bind; [apply log_free_careers_page|]. intros careers.
  apply log_free_bind; [|intros jobs; apply log_free_ret].
  destruct (Str.truthy _); [apply log_free_scrape_jobs_simple | apply log_free_ret].
Qed.

End Stable.

(** C8.  When the answer of the network to a request depends on the
    request only, two runs of [process_company] on the same name end the
    same way, whatever was requested before each: with equal rows, or with
    the same exception. *)
Theorem process_company_deterministic (W : world) (name : string)
    (log1 log2 : list request) :
  stable W ->
  fst (process_company W name log1) = fst (process_company W name log2).
Proof. intros H. apply (log_free_process_company W H name). Qed.

(** The recorded web is stable; a second run for Acme, after the requests
    of a first one, gives the row of the first. *)
Lemma process_company_deterministic_witness :
  stable Demo.web
  /\ fst (process_company Demo.web "Acme" [])
     = fst (process_company Demo.web "Acme"
              (snd (process_company Demo.web "Acme" []))).
Proof.
  assert (H : stable Demo.web) by (intros l1 l2 rq; reflexivity).
  split; [exact H|].
  apply (process_company_deterministic Demo.web "Acme" [] _ H).
Defined.

(** Nothing answers at [nowhere.com] on the recorded web: the transport
    raises, and the probe is [False]. *)
Lemma fetcher_never_raises_witness :
  (exists e, transport Demo.web [] (head_request "https://nowhere.com") = Raise e)
  /\ exists b,
      head_ok Demo.web "https://nowhere.com" []
        = (Ok b, ([] ++ [head_request "https://nowhere.com"])%list)
      /\ b = false.
Proof.
  assert (He : exists e,
             transport Demo.web [] (head_request "https://nowhere.com") = Raise e)
    by (eexists; reflexivity).
  split; [exact He|].
  destruct (proj2 (fetcher_never_raises Demo.web "https://nowhere.com" []))
    as (b & E & _ & Hraise).
  exists b. split; [exact E | exact (Hraise He)].
Defined.

(** ** More about the returned row *)

Lemma detect_ats_range (u : string) :
  In (detect_ats u) ("" :: "Internal" :: map fst ATS_PATTERNS)
  /\ (detect_ats u = "" <-> u = "").
Proof.
  destruct u as [|c u].
  - split; [left; reflexivity | split; reflexivity].
  - assert (Hu : Str.truthy (String c u) = true) by reflexivity.
    unfold detect_ats.
    destruct (detect_ats_loop ATS_PATTERNS (String c u)) as [name|] eqn:E.
    + destruct (detect_ats_loop_some _ _ _ Hu E) as (before & sig & after & H & _ & _).
      assert (Hin : In name (map fst ATS_PATTERNS)).
      { rewrite H, map_app. apply in_or_app. right. left. reflexivity. }
      split; [right; right; exact Hin|].
      split; [|discriminate]. intros ->. cbn in Hin.
      repeat (destruct Hin as [Hin|Hin]; [discriminate|]). contradiction.
    + cbn [Str.truthy]. split; [right; left; reflexivity|].
      split; discriminate.
Qed.

Section RowFacts.

Variable W : world.

Lemma careers_page_run (website : string) (log log' : list request)
    (r : result string) :
  careers_page W website log = (r, log') ->
  log' = (log ++ (if Str.truthy website then [get_request website] else []))%list
  /\ (website = "" -> r = Ok "").
Proof.
  unfold careers_page. destruct website as [|c w]; cbn [Str.truthy].
  - unfold ret. intros [= <- <-]. rewrite app_nil_r. split; reflexivity.
  - unfold bind. rewrite safe_get_run.
    destruct (match transport W log (get_request (String c w)) with
              | Ok r0 => if (status_code r0 <? 400)%Z then Some r0 else None
              | Raise _ => None
              end) as [r0|]; unfold lift, ret; intros [= <- <-];
      (split; [reflexivity | discriminate]).
Qed.


End RowFacts.

(** X1.  In a row that [process_company] returns, the provider is what
    [detect_ats] makes of the job-listings URL of the same row; it is the
    empty string, ["Internal"] or one of the five ATS names, and it is
    empty exactly when the job-listings URL is empty. *)
Theorem provider_classifies_listing_url (W : world) (name : string)
    (log log' : list request) (row : dict) :
  process_company W name log = (Ok row, log') ->
  provider row = detect_ats (jobsListingURL row)
  /\ In (provider row)
       [ ""; "Internal"; "Personio"; "Teamtailor"; "Zoho Recruit"; "Lever";
         "Greenhouse" ]
  /\ (provider row = "" <-> jobsListingURL row = "").
Proof.
  intros H.
  destruct (process_company_inv W name log log' row H)
    as (website & careers & jobs & log1 & log2 & _ & _ & _ & ->).
  destruct (fill_posts_row jobs (Str.strip name) website
              ("https://www.linkedin.com/company/"
                 ++ Str.replace " " "-" (Str.lower (Str.strip name)) ++ "/")
              careers (py_or careers (py_or website ""))
              (detect_ats (py_or careers (py_or website ""))))
    as (_ & _ & _ & _ & _ & Hj & Hp & _).
  rewrite Hj, Hp. split; [reflexivity|].
  apply (detect_ats_range (py_or careers (py_or website ""))).
Qed.

Lemma provider_classifies_listing_url_witness :
  exists row log',
    process_company Demo.web " Acme " [] = (Ok row, log')
    /\ provider row = detect_ats (jobsListingURL row)
    /\ provider row = "Internal".
Proof.
  eexists _, _. split; [vm_compute; reflexivity|].
  split; [|reflexivity].
  apply (provider_classifies_listing_url Demo.web " Acme " [] _ _ eq_refl).
Defined.

(** X2.  In a row that [process_company] returns, the website is empty
    or one of the six candidate URLs of the name; a careers URL is only
    present together with a website; and the job-listings URL is empty
    exactly when the website is. *)
Theorem row_urls_hang_together (W : world) (name : string)
    (log log' : list request) (row : dict) :
  process_company W name log = (Ok row, log') ->
  In (websiteURL row) ("" :: candidates name)
  /\ (websiteURL row = "" -> careersURL row = "")
  /\ (jobsListingURL row = "" <-> websiteURL row = "").
Proof.
  intros H.
  destruct (process_company_inv W name log log' row H)
    as (website & careers & jobs & log1 & log2 & Hg & Hc & _ & ->).
  destruct (fill_posts_row jobs (Str.strip name) website
              ("https://www.linkedin.com/company/"
                 ++ Str.replace " " "-" (Str.lower (Str.strip name)) ++ "/")
              careers (py_or careers (py_or website ""))
              (detect_ats (py_or careers (py_or website ""))))
    as (_ & _ & Hw & _ & Hcar & Hj & _).
  rewrite Hw, Hcar, Hj.
  destruct (guess_website_value W (Str.strip name) TLDS log) as (w & l & E & Hin).
  rewrite E in Hg. injection Hg as -> ->.
  destruct (careers_page_run W website log1 log2 (Ok careers) Hc) as [_ Hempty].
  split; [destruct Hin as [->|Hin]; [left; reflexivity | right; exact Hin]|].
  split.
  - intros Hw0. specialize (Hempty Hw0). congruence.
  - unfold py_or. split.
    + destruct careers; cbn [Str.truthy]; [|discriminate].
      destruct website; cbn [Str.truthy]; [reflexivity | discriminate].
    + intros Hw0. specialize (Hempty Hw0). injection Hempty as ->.
      rewrite Hw0. reflexivity.
Qed.

Lemma row_urls_hang_together_witness :
  exists row log',
    process_company Demo.web "RelPath" [] = (Ok row, log')
    /\ In (websiteURL row) ("" :: candidates "RelPath")
    /\ websiteURL row = "https://relpath.com".
Proof.
  eexists _, _. split; [vm_compute; reflexivity|]. split; [|reflexivity].
  apply (row_urls_hang_together Demo.web "RelPath" [] _ _ eq_refl).
Defined.



(** ** What can go wrong, and which calls are made *)

Section Escapes.

Variable W : world.

Lemma find_careers_loop_raise (base : string) (anchors : list anchor) (e : exn) :
  find_careers_loop W base anchors = Raise e ->
  exists h, Str.startswith h "http" = false /\ urljoin W base h = Raise e.
Proof.
  induction anchors as [|a rest IH]; cbn [find_careers_loop]; [discriminate|].
  destruct (any_careers_keyword _ _); [|exact IH].
  destruct (Str.startswith (Str.strip (href a)) "http") eqn:Hp; cbn [negb];
    [discriminate|].
  intros H. exists (Str.strip (href a)). split; [exact Hp | exact H].
Qed.

Lemma traverse_posting_raise (u : string) (l : list anchor) (e : exn) :
  traverse (posting W u) l = Raise e ->
  exists h, Str.startswith h "http" = false /\ urljoin W u h = Raise e.
Proof.
  induction l as [|a l IH]; cbn [traverse]; [discriminate|].
  unfold posting at 1. destruct (Str.startswith (href a) "http") eqn:Hp.
  - cbn [rbind]. destruct (traverse (posting W u) l) as [ps|e']; cbn [rbind];
      [discriminate|].
    intros [= ->]. apply IH. reflexivity.
  - destruct (urljoin W u (href a)) as [j|e'] eqn:E; cbn [rbind].
    + destruct (traverse (posting W u) l) as [ps|e'']; cbn [rbind]; [discriminate|].
      intros [= ->]. apply IH. reflexivity.
    + intros [= ->]. exists (href a). split; [exact Hp | exact E].
Qed.

(** A run, returned or raised, extends the log by the probes of some
    first candidates and at most two fetches. *)
Lemma guess_website_trace (nc : string) (tlds : list string) :
  forall log, exists tried rest w,
    tlds = (tried ++ rest)%list
    /\ guess_website W nc tlds log = (Ok w, (log ++ probes nc tried)%list)
    /\ (tlds <> [] -> tried <> [])
    /\ (w = "" \/ In w (map (test_url nc) tlds))
    /\ (w = "" -> rest = []).
Proof.
  induction tlds as [|b tlds IH]; intros log.
  - exists [], [], "". cbn. rewrite app_nil_r. repeat split; auto.
  - cbn [guess_website]. unfold bind. rewrite head_ok_run.
    destruct (below_400 _).
    + exists [b], tlds, (test_url nc b). repeat split; try discriminate.
      right. left. reflexivity.
    + destruct (IH (log ++ [head_request (test_url nc b)])%list)
        as (tried & rest & w & -> & E & _ & Hw & Hr).
      exists (b :: tried), rest, w. rewrite E. unfold probes. cbn [map app].
      rewrite <- app_assoc. repeat split; try discriminate; [|exact Hr].
      destruct Hw as [Hw|Hw]; [left | right; right]; exact Hw.
Qed.

Lemma process_company_requests (name : string) (log log' : list request)
    (r : result dict) :
  process_company W name log = (r, log') ->
  exists reqs, log' = (log ++ reqs)%list /\ 1 <= length reqs <= 8.
Proof.
  unfold process_company, bind.
  destruct (guess_website_trace (Str.strip name) TLDS log)
    as (tried & rest & website & Ht & -> & Hne & _ & _).
  assert (Hlen : 1 <= length (probes (Str.strip name) tried) <= 6).
  { unfold probes. rewrite !length_map.
    assert (length tried + length rest = 6) by (rewrite <- length_app, <- Ht; reflexivity).
    destruct tried; [exfalso; apply Hne; [discriminate | reflexivity] | cbn in *; lia]. }
  destruct (careers_page W website (log ++ probes (Str.strip name) tried)%list)
    as [[careers|e] log2] eqn:Ec;
    destruct (careers_page_run W _ _ _ _ Ec) as [-> _].
  - destruct (Str.truthy (py_or careers (py_or website ""))).
    + rewrite scrape_jobs_simple_run.
      destruct (match transport W _ _ with Ok _ => _ | Raise _ => _ end) as [jobs|e];
        intros [= <- <-];
        exists (probes (Str.strip name) tried
                ++ (if Str.truthy website then [get_request website] else [])
                ++ [get_request (py_or careers (py_or website ""))])%list;
        (split; [rewrite <- !app_assoc; reflexivity|]);
        rewrite !length_app; destruct (Str.truthy website); cbn [length]; lia.
    + unfold ret. intros [= <- <-].
      exists (probes (Str.strip name) tried
              ++ (if Str.truthy website then [get_request website] else []))%list.
      split; [rewrite <- app_assoc; reflexivity|].
      rewrite length_app. destruct (Str.truthy website); cbn [length]; lia.
  - intros [= <- <-].
    exists (probes (Str.strip name) tried
            ++ (if Str.truthy website then [get_request website] else []))%list.
    split; [rewrite <- app_assoc; reflexivity|].
    rewrite length_app. destruct (Str.truthy website); cbn [length]; lia.
Qed.

Section Alike.

Variable t : list request -> request -> result response.
Hypothesis Halike : forall lg rq, alike (transport W lg rq) (t lg rq).

Lemma below_400_alike (lg : list request) (rq : request) :
  below_400 (t lg rq) = below_400 (transport W lg rq).
Proof.
  destruct (Halike lg rq) as [<-|[H1 H2]]; [reflexivity | congruence].
Qed.

Lemma safe_get_alike (u : string) (lg : list request) :
  safe_get (with_transport W t) u lg = safe_get W u lg.
Proof.
  rewrite !safe_get_run. cbn [with_transport transport].
  destruct (Halike lg (get_request u)) as [<-|[H1 H2]]; [reflexivity|].
  unfold below_400 in H1, H2.
  destruct (transport W lg (get_request u)) as [r1|e1], (t lg (get_request u)) as [r2|e2];
    try rewrite H1; try rewrite H2; reflexivity.
Qed.

Lemma head_ok_alike (u : string) (lg : list request) :
  head_ok (with_transport W t) u lg = head_ok W u lg.
Proof.
  rewrite !head_ok_run. cbn [with_transport transport].
  rewrite below_400_alike. reflexivity.
Qed.

Lemma find_careers_loop_alike (base : string) (anchors : list anchor) :
  find_careers_loop (with_transport W t) base anchors
    = find_careers_loop W base anchors.
Proof.
  induction anchors as [|a rest IH]; cbn [find_careers_loop]; [reflexivity|].
  rewrite IH. reflexivity.
Qed.

Lemma scrape_loop_alike (u : string) (anchors : list anchor) :
  forall jobs,
    scrape_loop (with_transport W t) u anchors jobs = scrape_loop W u anchors jobs.
Proof.
  induction anchors as [|a rest IH]; intros jobs; cbn [scrape_loop]; [reflexivity|].
  rewrite !IH. cbn [with_transport urljoin].
  destruct (if negb (Str.startswith (href a) "http")
            then urljoin W u (href a) else Ok (href a)) as [j|e]; cbn [rbind];
    [rewrite IH|]; reflexivity.
Qed.

Lemma guess_website_alike (nc : string) (tlds : list string) (lg : list request) :
  guess_website (with_transport W t) nc tlds lg = guess_website W nc tlds lg.
Proof.
  revert lg. induction tlds as [|b tlds IH]; intros lg; [reflexivity|].
  cbn [guess_website]. unfold bind. rewrite head_ok_alike.
  destruct (head_ok W (test_url nc b) lg) as [[[|]|e] l];
    [reflexivity | apply IH | reflexivity].
Qed.

Lemma careers_page_alike (website : string) (lg : list request) :
  careers_page (with_transport W t) website lg = careers_page W website lg.
Proof.
  unfold careers_page. destruct (Str.truthy website); [|reflexivity].
  unfold bind. rewrite safe_get_alike.
  destruct (safe_get W website lg) as [[[r|]|e] l]; [|reflexivity|reflexivity].
  unfold lift, find_careers. rewrite find_careers_loop_alike. reflexivity.
Qed.

Lemma scrape_jobs_simple_alike (u : string) (lg : list request) :
  scrape_jobs_simple (with_transport W t) u lg = scrape_jobs_simple W u lg.
Proof.
  unfold scrape_jobs_simple, bind. rewrite safe_get_alike.
  destruct (safe_get W u lg) as [[[r|]|e] l]; [|reflexivity|reflexivity].
  unfold lift. rewrite scrape_loop_alike. reflexivity.
Qed.

End Alike.

End Escapes.

(** X4.  A transport exception and a failure status are one and the
    same to the pipeline: when the transport is exchanged for one whose
    answers differ from the old ones only where both are failures (an
    exception, or a status of 400 or more), [process_company] makes the
    same calls and ends the same way. *)
Theorem transport_failures_look_alike (W : world)
    (t : list request -> request -> result response)
    (name : string) (log : list request) :
  (forall lg rq, alike (transport W lg rq) (t lg rq)) ->
  process_company (with_transport W t) name log = process_company W name log.
Proof.
  intros H. unfold process_company, bind.
  rewrite (guess_website_alike W t H).
  destruct (guess_website W (Str.strip name) TLDS log) as [[website|e] log1];
    [|reflexivity].
  rewrite (careers_page_alike W t H).
  destruct (careers_page W website log1) as [[careers|e] log2]; [|reflexivity].
  destruct (Str.truthy (py_or careers (py_or website ""))); [|reflexivity].
  rewrite (scrape_jobs_simple_alike W t H). reflexivity.
Qed.

(** On the recorded web with 503 answers in place of the exceptions,
    Nowhere still gets its row of blanks after six probes. *)
Lemma transport_failures_look_alike_witness :
  (forall lg rq, alike (transport Demo.web lg rq) (answering_503 lg rq))
  /\ process_company (with_transport Demo.web answering_503) "Nowhere" []
     = process_company Demo.web "Nowhere" [].
Proof.
  assert (H : forall lg rq, alike (transport Demo.web lg rq) (answering_503 lg rq)).
  { intros lg rq. unfold alike, answering_503.
    destruct (transport Demo.web lg rq) as [r|e]; [left | right; split]; reflexivity. }
  split; [exact H|].
  apply (transport_failures_look_alike Demo.web answering_503 "Nowhere" [] H).
Defined.

(** X5.  The requests of a run that returns a row are, in this order:
    the HEAD probes of the first one to six candidates (all six when no
    website is found) and then, when a website was found, one GET of the
    website and one GET of the job-listings URL; at most eight requests. *)
Theorem requests_of_a_returned_run (W : world) (name : string)
    (log log' : list request) (row : dict) :
  process_company W name log = (Ok row, log') ->
  exists tried rest,
    TLDS = (tried ++ rest)%list
    /\ tried <> []
    /\ (websiteURL row = "" -> tried = TLDS)
    /\ log' =
         (log ++ probes (Str.strip name) tried
              ++ (if Str.truthy (websiteURL row)
                  then [get_request (websiteURL row);
                        get_request (jobsListingURL row)]
                  else []))%list
    /\ length log' <= length log + 8.
Proof.
  intros H.
  destruct (process_company_inv W name log log' row H)
    as (website & careers & jobs & log1 & log2 & Hg & Hc & Hj & ->).
  destruct (fill_posts_row jobs (Str.strip name) website
              ("https://www.linkedin.com/company/"
                 ++ Str.replace " " "-" (Str.lower (Str.strip name)) ++ "/")
              careers (py_or careers (py_or website ""))
              (detect_ats (py_or careers (py_or website ""))))
    as (_ & _ & Hw & _ & _ & Hju & _).
  rewrite Hw, Hju.
  destruct (guess_website_trace W (Str.strip name) TLDS log)
    as (tried & rest & w & Ht & E & Hne & _ & Hall).
  rewrite E in Hg. injection Hg as -> <-.
  destruct (careers_page_run W _ _ _ _ Hc) as [-> Hempty].
  exists tried, rest. split; [exact Ht|]. split; [apply Hne; discriminate|].
  split; [intros Hw0; rewrite (Hall Hw0), app_nil_r in Ht; symmetry; exact Ht|].
  assert (Hlen : length tried <= 6).
  { assert (length tried + length rest = 6) by (rewrite <- length_app, <- Ht; reflexivity).
    lia. }
  destruct website as [|c w]; cbn [Str.truthy] in *.
  - specialize (Hempty eq_refl). injection Hempty as ->.
    cbn in Hj. unfold ret in Hj. injection Hj as _ <-.
    split; [rewrite <- !app_assoc; reflexivity|].
    rewrite !length_app. unfold probes. rewrite !length_map. cbn [length]. lia.
  - assert (Hu : Str.truthy (py_or careers (py_or (String c w) "")) = true)
      by (destruct careers; reflexivity).
    rewrite Hu in Hj. rewrite scrape_jobs_simple_run in Hj. injection Hj as _ <-.
    split; [rewrite <- !app_assoc; reflexivity|].
    rewrite !length_app. unfold probes. rewrite !length_map. cbn [length]. lia.
Qed.

Lemma requests_of_a_returned_run_witness :
  exists row log',
    process_company Demo.web " Acme " [] = (Ok row, log')
    /\ log' = [ head_request "https://acme.com"; get_request "https://acme.com";
                get_request "https://acme.com/careers" ]
    /\ length log' <= length (@nil request) + 8.
Proof.
  eexists _, _. split; [vm_compute; reflexivity|]. split; [reflexivity|].
  destruct (requests_of_a_returned_run Demo.web " Acme " [] _ _ eq_refl)
    as (tried & rest & _ & _ & _ & _ & Hlen).
  exact Hlen.
Defined.

(** X6.  The extractor stops at the third posting: once the anchors
    read so far hold three with a role title and an href, whatever follows
    them on the page changes nothing, not even an href that [urljoin]
    would refuse.  A page with fewer such anchors yields exactly as many
    postings as it has, with their visible texts as titles, in order. *)
Theorem scrape_stops_at_third_posting (W : world) (listings_url : string)
    (seen later : list anchor) :
  (3 <= length (filter job_anchor seen) ->
     scrape_loop W listings_url (seen ++ later) []
       = scrape_loop W listings_url seen [])
  /\ (forall jobs,
        scrape_loop W listings_url seen [] = Ok jobs ->
        length jobs = Nat.min 3 (length (filter job_anchor seen))
        /\ map title jobs = map get_text (firstn 3 (filter job_anchor seen))).
Proof.
  split.
  - intros H3. rewrite !scrape_loop_spec by (cbn; lia). cbn [length Nat.sub].
    rewrite filter_app, firstn_app.
    replace (3 - length (filter job_anchor seen)) with 0 by lia.
    cbn [firstn]. rewrite app_nil_r. reflexivity.
  - intros jobs. rewrite scrape_loop_spec by (cbn; lia). cbn [length Nat.sub app].
    destruct (traverse _ _) as [ps|e] eqn:E; cbn [rbind]; [|discriminate].
    intros [= <-]. split.
    + rewrite (traverse_length _ _ _ E), length_firstn. reflexivity.
    + revert ps E. generalize (firstn 3 (filter job_anchor seen)).
      induction l as [|a l IH]; cbn [traverse]; intros ps.
      * intros [= <-]. reflexivity.
      * unfold posting at 1.
        destruct (if Str.startswith (href a) "http" then Ok (href a)
                  else urljoin W listings_url (href a)) as [x|e]; cbn [rbind];
          [|discriminate].
        destruct (traverse (posting W listings_url) l) as [ps'|e] eqn:E';
          cbn [rbind]; [|discriminate].
        intros [= <-]. cbn. f_equal. apply IH. reflexivity.
Qed.

Lemma scrape_stops_at_third_posting_witness :
  3 <= length (filter job_anchor
                 [ mk_anchor "/j/1" "Data Analyst"; mk_anchor "/j/2" "Designer";
                   mk_anchor "/j/3" "Intern" ])
  /\ scrape_loop Demo.web "https://acme.com"
       ([ mk_anchor "/j/1" "Data Analyst"; mk_anchor "/j/2" "Designer";
          mk_anchor "/j/3" "Intern" ] ++ [mk_anchor "//[x" "Engineer"])
       []
     = scrape_loop Demo.web "https://acme.com"
         [ mk_anchor "/j/1" "Data Analyst"; mk_anchor "/j/2" "Designer";
           mk_anchor "/j/3" "Intern" ] [].
Proof.
  assert (H : 3 <= length (filter job_anchor
                 [ mk_anchor "/j/1" "Data Analyst"; mk_anchor "/j/2" "Designer";
                   mk_anchor "/j/3" "Intern" ])) by (vm_compute; lia).
  split; [exact H|].
  apply (proj1 (scrape_stops_at_third_posting Demo.web "https://acme.com" _ _) H).
Defined.

(** ** How the name enters the run *)

Lemma guess_website_lower (W : world) (nc1 nc2 : string) :
  Str.lower nc1 = Str.lower nc2 ->
  forall tlds log, guess_website W nc1 tlds log = guess_website W nc2 tlds log.
Proof.
  intros H tlds. induction tlds as [|b tlds IH]; intros log; [reflexivity|].
  cbn [guess_website].
  assert (E : test_url nc1 b = test_url nc2 b) by (unfold test_url; rewrite H; reflexivity).
  rewrite E. unfold bind. destruct (head_ok W (test_url nc2 b) log) as [[[|]|e] l];
    [reflexivity | apply IH | reflexivity].
Qed.

Lemma dict_set_after_company_name (suffix v c : string) (d : dict) :
  dict_set ("job post" ++ suffix) v (("Company Name", c) :: d)
    = ("Company Name", c) :: dict_set ("job post" ++ suffix) v d.
Proof. reflexivity. Qed.

Lemma fill_posts_keeps_head (range : list nat) (jobs : list job) (c : string) :
  forall base,
    fill_posts range jobs (("Company Name", c) :: base)
      = ("Company Name", c) :: fill_posts range jobs base.
Proof.
  induction range as [|i range IH]; intros base; [reflexivity|].
  cbn [fill_posts]. destruct (i <? length jobs)%nat;
    rewrite !dict_set_after_company_name; apply IH.
Qed.

(** X7.  Only the trimmed, lowercased name steers a run: two names that
    agree after trimming and lowercasing cause the same requests, and end
    with the same exception or with rows that differ in the Company Name
    column alone. *)
Theorem letter_case_does_not_steer (W : world) (n1 n2 : string) (log : list request) :
  Str.lower (Str.strip n1) = Str.lower (Str.strip n2) ->
  snd (process_company W n1 log) = snd (process_company W n2 log)
  /\ ((exists others,
         fst (process_company W n1 log)
           = Ok (("Company Name", Str.strip n1) :: others)
         /\ fst (process_company W n2 log)
           = Ok (("Company Name", Str.strip n2) :: others))
      \/ (exists e,
            fst (process_company W n1 log) = Raise e
            /\ fst (process_company W n2 log) = Raise e)).
Proof.
  intros H. unfold process_company, bind.
  rewrite (guess_website_lower W _ _ H TLDS log), H.
  destruct (guess_website W (Str.strip n2) TLDS log) as [[website|e] log1];
    [|split; [reflexivity | right; exists e; split; reflexivity]].
  destruct (careers_page W website log1) as [[careers|e] log2];
    [|split; [reflexivity | right; exists e; split; reflexivity]].
  destruct ((if Str.truthy (py_or careers (py_or website ""))
             then scrape_jobs_simple W (py_or careers (py_or website ""))
             else ret []) log2) as [[jobs|e] log3];
    [|split; [reflexivity | right; exists e; split; reflexivity]].
  cbn [ret fst snd]. split; [reflexivity|]. left.
  rewrite !fill_posts_keeps_head. eexists. split; reflexivity.
Qed.

Lemma letter_case_does_not_steer_witness :
  Str.lower (Str.strip " ACME") = Str.lower (Str.strip "acme  ")
  /\ snd (process_company Demo.web " ACME" [])
     = snd (process_company Demo.web "acme  " []).
Proof.
  assert (H : Str.lower (Str.strip " ACME") = Str.lower (Str.strip "acme  "))
    by reflexivity.
  split; [exact H|].
  apply (proj1 (letter_case_does_not_steer Demo.web " ACME" "acme  " [] H)).
Defined.

Lemma contains_char_app (c : ascii) (a b : string) :
  Str.contains (String c "") (a ++ b)
    = Str.contains (String c "") a || Str.contains (String c "") b.
Proof.
  induction a as [|d a IH].
  - cbn [append Str.contains prefix orb]. reflexivity.
  - cbn [append Str.contains]. rewrite IH.
    cbn [prefix]. destruct (ascii_dec c d); [|reflexivity].
    destruct (a ++ b), a; reflexivity.
Qed.

Lemma replace_leaves_no_space (new s : string) :
  Str.contains " " new = false ->
  Str.contains " " (Str.replace " " new s) = false.
Proof.
  intros Hnew. induction s as [|c s IH]; [reflexivity|].
  cbn [Str.replace]. destruct (Ascii.eqb_spec c " ") as [->|Hc].
  - rewrite contains_char_app, Hnew, IH. reflexivity.
  - cbn [Str.contains]. rewrite IH. cbn [prefix].
    destruct (ascii_dec " " c) as [E|_]; [congruence | reflexivity].
Qed.

Lemma test_url_no_space (nc tld : string) :
  In tld TLDS -> Str.contains " " (test_url nc tld) = false.
Proof.
  intros Hin. unfold test_url.
  rewrite !contains_char_app, replace_leaves_no_space by reflexivity.
  cbn in Hin. repeat (destruct Hin as [<-|Hin]; [reflexivity|]). contradiction.
Qed.

(** X8.  No guessed URL has a space in it: not the six candidate
    websites of a name, and, in a row that [process_company] returns, not
    the website and not the LinkedIn URL, whatever spaces the name has. *)
Theorem guessed_urls_have_no_space (W : world) (name : string) :
  Forall (fun c => ~ substring_of " " c) (candidates name)
  /\ (forall log row log',
        process_company W name log = (Ok row, log') ->
        ~ substring_of " " (websiteURL row)
        /\ ~ substring_of " " (linkedinURL row)).
Proof.
  assert (Hc : Forall (fun c => ~ substring_of " " c) (candidates name)).
  { apply Forall_forall. intros c Hin. apply contains_false.
    unfold candidates in Hin. apply in_map_iff in Hin.
    destruct Hin as (tld & <- & Htld). apply test_url_no_space, Htld. }
  split; [exact Hc|].
  intros log row log' H.
  destruct (process_company_inv W name log log' row H)
    as (website & careers & jobs & log1 & log2 & Hg & _ & _ & ->).
  destruct (fill_posts_row jobs (Str.strip name) website
              ("https://www.linkedin.com/company/"
                 ++ Str.replace " " "-" (Str.lower (Str.strip name)) ++ "/")
              careers (py_or careers (py_or website ""))
              (detect_ats (py_or careers (py_or website ""))))
    as (_ & _ & Hw & Hl & _).
  rewrite Hw, Hl. split.
  - destruct (guess_website_value W (Str.strip name) TLDS log) as (w & l & E & Hin).
    rewrite E in Hg. injection Hg as -> ->.
    destruct Hin as [->|Hin].
    + apply contains_false. reflexivity.
    + rewrite Forall_forall in Hc. apply Hc, Hin.
  - apply contains_false.
    rewrite !contains_char_app, replace_leaves_no_space by reflexivity.
    reflexivity.
Qed.

Lemma guessed_urls_have_no_space_witness :
  exists row log',
    process_company Demo.web "No Where Inc" [] = (Ok row, log')
    /\ linkedinURL row = "https://www.linkedin.com/company/no-where-inc/"
    /\ ~ substring_of " " (linkedinURL row).
Proof.
  eexists _, _. split; [vm_compute; reflexivity|]. split; [reflexivity|].
  apply (proj2 (guessed_urls_have_no_space Demo.web "No Where Inc") [] _ _ eq_refl).
Defined.

(** ** The batch *)

Lemma dict_get_of_key (k : string) (d : dict) :
  In k (keys d) -> exists v, dict_get k d = Some v.
Proof.
  induction d as [|[k' v'] d IH]; cbn; [contradiction|].
  destruct (String.eqb_spec k k') as [->|Hne].
  - intros _. exists v'. reflexivity.
  - intros [E|Hin]; [congruence | apply IH, Hin].
Qed.

(** A row with the columns [COLUMNS] fills every cell of its line of the
    frame. *)
Lemma DataFrame_line (row : dict) :
  keys row = COLUMNS ->
  let line := map (fun c => dict_get c row) COLUMNS in
  length line = 18
  /\ nth 0 line None = Some (companyName row)
  /\ Forall (fun cell => cell <> None) line.
Proof.
  intros Hk line. split; [reflexivity|]. split.
  - unfold line, companyName, column. cbn [COLUMNS map nth].
    destruct (dict_get_of_key "Company Name" row) as [v ->]; [|reflexivity].
    rewrite Hk. left. reflexivity.
  - unfold line. apply Forall_forall. intros cell Hin.
    apply in_map_iff in Hin. destruct Hin as (c & <- & Hc).
    destruct (dict_get_of_key c row) as [v ->]; [rewrite Hk; exact Hc | discriminate].
Qed.

Section BatchFacts.

Variable W : world.

Lemma main_loop_app (a b : list string) :
  forall acc log,
    main_loop W (a ++ b) acc log
      = bind (main_loop W a acc) (fun results => main_loop W b results) log.
Proof.
  induction a as [|n a IH]; intros acc log; [reflexivity|].
  cbn [app main_loop]. unfold bind.
  destruct (process_company W n log) as [[row|e] log1]; [|reflexivity].
  rewrite IH. reflexivity.
Qed.

Lemma main_loop_rows (names : list string) :
  forall acc log rows log',
    main_loop W names acc log = (Ok rows, log') ->
    exists new,
      rows = (acc ++ new)%list
      /\ Forall2 (fun n row => keys row = COLUMNS /\ companyName row = Str.strip n)
           names new.
Proof.
  induction names as [|n names IH]; intros acc log rows log'.
  - cbn. unfold ret. intros [= <- <-]. exists []. rewrite app_nil_r.
    split; [reflexivity | constructor].
  - cbn [main_loop]. unfold bind.
    destruct (process_company W n log) as [[row|e] log1] eqn:E; [|discriminate].
    intros H. destruct (IH _ _ _ _ H) as (new & -> & Hnew).
    exists (row :: new). rewrite <- app_assoc. split; [reflexivity|].
    constructor; [|exact Hnew].
    destruct (process_company_row_shape W n log log1 row E) as (Hk & Hn & _).
    split; assumption.
Qed.

Lemma main_loop_requests (names : list string) :
  forall acc log r log',
    main_loop W names acc log = (r, log') ->
    length log' <= length log + 8 * length names.
Proof.
  induction names as [|n names IH]; intros acc log r log'.
  - cbn. unfold ret. intros [= <- <-]. lia.
  - cbn [main_loop]. unfold bind.
    destruct (process_company W n log) as [[row|e] log1] eqn:E;
      destruct (process_company_requests W n log log1 _ E) as (reqs & -> & Hlen).
    + intros H. apply IH in H. rewrite length_app in H. cbn [length]. lia.
    + intros [= <- <-]. rewrite length_app. cbn [length]. lia.
Qed.

Lemma log_free_main_loop (names : list string) :
  stable W -> forall acc, log_free (main_loop W names acc).
Proof.
  intros Hs. induction names as [|n names IH]; intros acc; cbn [main_loop].
  - apply log_free_ret.
  - apply log_free_bind; [apply (log_free_process_company W Hs) | intros row; apply IH].
Qed.

Lemma batch_size (cells : list (option string)) :
  length (iloc START_ROW (START_ROW + BATCH_COUNT) (notna cells))
    = Nat.min BATCH_COUNT (length (notna cells)).
Proof. unfold iloc, START_ROW. cbn [Nat.add Nat.sub skipn]. rewrite Nat.sub_0_r. apply length_firstn. Qed.

End BatchFacts.

(** X9.  When [main] gets through, the output sheet is the sheet that
    was there (if any) with one line per processed company after it, in
    sheet order: the companies are the first 800 rows that have a name,
    the number printed is how many those are, and each new line has all
    eighteen cells filled, the first with the trimmed name. *)
Theorem main_appends_one_line_per_name (W : world) (cells : list (option string))
    (disk : option frame) (log log' : list request) (k : nat)
    (disk' : option frame) :
  main W cells disk log = (Ok k, log', disk') ->
  k = Nat.min 800 (length (notna cells))
  /\ exists new,
       disk' = Some ((match disk with Some existing => existing | None => [] end)
                       ++ new)%list
       /\ Forall2 (fun n line =>
                     length line = 18
                     /\ nth 0 line None = Some (Str.strip n)
                     /\ Forall (fun cell => cell <> None) line)
            (firstn 800 (notna cells)) new.
Proof.
  unfold main.
  destruct (main_loop W (iloc START_ROW (START_ROW + BATCH_COUNT) (notna cells)) [] log)
    as [[rows|e] l] eqn:E; [|discriminate].
  destruct (main_loop_rows W _ _ _ _ _ E) as (new & -> & Hnew). cbn [app] in *.
  assert (Hlines : Forall2 (fun n line =>
                     length line = 18
                     /\ nth 0 line None = Some (Str.strip n)
                     /\ Forall (fun cell => cell <> None) line)
            (firstn 800 (notna cells)) (DataFrame new COLUMNS)).
  { change (firstn 800 (notna cells))
      with (iloc START_ROW (START_ROW + BATCH_COUNT) (notna cells)).
    clear E. induction Hnew as [|n row names new [Hk Hn] Hnew IH]; [constructor|].
    cbn [DataFrame map]. constructor; [|exact IH].
    destruct (DataFrame_line row Hk) as (H1 & H2 & H3).
    rewrite Hn in H2. repeat split; assumption. }
  assert (Hk : length (DataFrame new COLUMNS) = Nat.min 800 (length (notna cells))).
  { unfold DataFrame. rewrite length_map, <- (Forall2_length Hnew).
    apply batch_size. }
  destruct disk as [existing|]; intros [= <- <- <-];
    (split; [exact Hk|]); exists (DataFrame new COLUMNS); split;
    try reflexivity; exact Hlines.
Qed.

Lemma main_appends_one_line_per_name_witness :
  exists log' disk',
    main Demo.web [Some " Acme "; None; Some "Nowhere"] None [] = (Ok 2, log', disk')
    /\ 2 = Nat.min 800 (length (notna [Some " Acme "; None; Some "Nowhere"])).
Proof.
  eexists _, _. split; [vm_compute; reflexivity|].
  apply (proj1 (main_appends_one_line_per_name Demo.web
                  [Some " Acme "; None; Some "Nowhere"] None [] _ 2 _ eq_refl)).
Defined.

(** X10.  When [process_company] raises for one company of the batch,
    [main] raises with it: the rows of the companies before it are
    dropped, the companies after it are not requested, and the output
    file is left as it was. *)
Theorem main_drops_the_batch_on_a_raise (W : world) (cells : list (option string))
    (disk : option frame) (log : list request)
    (before : list string) (n : string) (after : list string)
    (rows : list dict) (log1 log2 : list request) (e : exn) :
  iloc START_ROW (START_ROW + BATCH_COUNT) (notna cells) = (before ++ n :: after)%list ->
  main_loop W before [] log = (Ok rows, log1) ->
  process_company W n log1 = (Raise e, log2) ->
  main W cells disk log = (Raise e, log2, disk).
Proof.
  intros Hb Hrows Hn. unfold main. rewrite Hb, main_loop_app.
  unfold bind at 1. rewrite Hrows. cbn [main_loop]. unfold bind. rewrite Hn.
  reflexivity.
Qed.

Lemma main_drops_the_batch_on_a_raise_witness :
  exists rows log1 log2,
    main_loop Demo.web [" Acme "] [] [] = (Ok rows, log1)
    /\ process_company Demo.web "Brackets" log1 = (Raise ValueError, log2)
    /\ main Demo.web [Some " Acme "; Some "Brackets"; Some "Nowhere"]
         (Some [[Some "Old"]]) []
       = (Raise ValueError, log2, Some [[Some "Old"]]).
Proof.
  eexists _, _, _. split; [vm_compute; reflexivity|].
  split; [vm_compute; reflexivity|].
  eapply (main_drops_the_batch_on_a_raise Demo.web
            [Some " Acme "; Some "Brackets"; Some "Nowhere"] (Some [[Some "Old"]]) []
            [" Acme "] "Brackets" ["Nowhere"]);
    vm_compute; reflexivity.
Defined.

(** X11.  Nothing is remembered between runs: on a network that answers
    each request the same way every time, a later run of [main] on the
    same input sheet appends the very lines that the first run appended,
    once more, to whatever the output sheet then holds. *)
Theorem rerun_appends_the_batch_again (W : world) (cells : list (option string))
    (disk : option frame) (log log1 : list request) (k : nat) (sheet1 : frame) :
  stable W ->
  main W cells disk log = (Ok k, log1, Some sheet1) ->
  exists new,
    length new = k
    /\ sheet1 = ((match disk with Some existing => existing | None => [] end)
                   ++ new)%list
    /\ forall existing' log', exists log2,
         main W cells (Some existing') log'
           = (Ok k, log2, Some (existing' ++ new)%list).
Proof.
  intros Hs. unfold main.
  destruct (main_loop W (iloc START_ROW (START_ROW + BATCH_COUNT) (notna cells)) [] log)
    as [[rows|e] l] eqn:E; [|discriminate].
  intros H. exists (DataFrame rows COLUMNS).
  assert (H' : k = length (DataFrame rows COLUMNS)
               /\ sheet1 = ((match disk with Some existing => existing | None => [] end)
                              ++ DataFrame rows COLUMNS)%list).
  { destruct disk; injection H as <- _ <-; split; reflexivity. }
  destruct H' as [-> ->]. split; [reflexivity|]. split; [reflexivity|].
  intros existing' log'.
  pose proof (log_free_main_loop W
                (iloc START_ROW (START_ROW + BATCH_COUNT) (notna cells))
                Hs [] log' log) as Hfree.
  rewrite E in Hfree.
  destruct (main_loop W (iloc START_ROW (START_ROW + BATCH_COUNT) (notna cells))
              [] log') as [r2 l2].
  cbn [fst] in Hfree. subst r2. exists l2. reflexivity.
Qed.

Lemma rerun_appends_the_batch_again_witness :
  stable Demo.web
  /\ exists log1 sheet1 log2 sheet2,
       main Demo.web [Some "Nowhere"] None [] = (Ok 1, log1, Some sheet1)
       /\ main Demo.web [Some "Nowhere"] (Some sheet1) log1 = (Ok 1, log2, Some sheet2)
       /\ length sheet2 = 2.
Proof.
  assert (Hs : stable Demo.web) by (intros l1 l2 rq; reflexivity).
  split; [exact Hs|].
  destruct (rerun_appends_the_batch_again Demo.web [Some "Nowhere"] None []
              (snd (fst (main Demo.web [Some "Nowhere"] None []))) 1
              (match snd (main Demo.web [Some "Nowhere"] None []) with
               | Some t => t | None => [] end) Hs)
    as (new & Hlen & Hsheet & Hagain); [vm_compute; reflexivity|].
  destruct (Hagain (match snd (main Demo.web [Some "Nowhere"] None []) with
                    | Some t => t | None => [] end)
                   (snd (fst (main Demo.web [Some "Nowhere"] None []))))
    as [log2 H2].
  eexists _, _, log2, _. split; [vm_compute; reflexivity|]. split; [exact H2|].
  rewrite length_app, Hlen, Hsheet, length_app, Hlen. reflexivity.
Defined.

(** X12.  A run of [main], finished or raised, makes at most eight
    calls of [requests.head] and [requests.get] for each company of the
    batch, so at most 6400 calls in all.  (How many requests the library
    sends for one call, following redirects, is not counted.) *)
Theorem main_request_budget (W : world) (cells : list (option string))
    (disk disk' : option frame) (log log' : list request) (r : result nat) :
  main W cells disk log = (r, log', disk') ->
  length log' <= length log + 8 * Nat.min 800 (length (notna cells))
  /\ length log' <= length log + 8 * 800.
Proof.
  unfold main. intros H.
  assert (Hlen : length log' <= length log
                   + 8 * length (iloc START_ROW (START_ROW + BATCH_COUNT) (notna cells))).
  { destruct (main_loop W _ [] log) as [[rows|e] l] eqn:E;
      apply main_loop_requests in E.
    - destruct disk; injection H as _ <- _; exact E.
    - injection H as _ <- _. exact E. }
  rewrite batch_size in Hlen. unfold BATCH_COUNT in Hlen. split; [exact Hlen | lia].
Qed.

Lemma main_request_budget_witness :
  exists r log' disk',
    main Demo.web [Some " Acme "; None; Some "Nowhere"] None [] = (r, log', disk')
    /\ length log' <= length (@nil request) + 8 * 800.
Proof.
  eexists _, _, _. split; [vm_compute; reflexivity|].
  apply (proj2 (main_request_budget Demo.web [Some " Acme "; None; Some "Nowhere"]
                  None _ [] _ _ eq_refl)).
Defined.

(** ** The role pattern on every title *)






Section WideExtractor.

Variable W : world.
Variable select : string -> list Wide.anchor.
Variable listings_url : string.


End WideExtractor.



